(** * Weather dashboard: the asynchronous fetch-and-render pipeline

    A shallow embedding of [WEATHER_APP.py]: the animated condition
    renderer ([WeatherCanvas]), the fetch worker ([WeatherFetcher.fetch]
    and [WeatherDashboard._background_fetch]), the result queue and
    the UI poller ([WeatherDashboard._process_queue],
    [_update_ui_with_data], [_draw_sun_arc]), and the start-up loading
    of favourites ([load_favorites]).

    Python objects are records, method calls are functions on them, and
    code that can raise runs in an error monad whose state survives the
    exception, as a Python object's attributes do. *)

From Stdlib Require Import ZArith List String Ascii Bool Lia QArith Qminmax.
From Stdlib Require Import PrimFloat SpecFloat FloatOps DecimalString.
Import ListNotations.

Set Warnings "-inexact-float,-register-all".
Local Open Scope string_scope.
Local Open Scope Z_scope.

(* ================================================================== *)
(** * Part I. The program                                              *)
(* ================================================================== *)

(** ** Python strings *)

Module PyStr.

(** [sub in s] on [str]: some suffix of [s] starts with [sub]. *)
Fixpoint py_in (sub s : string) : bool :=
  if String.prefix sub s then true
  else match s with
       | EmptyString => false
       | String _ rest => py_in sub rest
       end.

Definition is_upper (c : ascii) : bool :=
  let n := nat_of_ascii c in (Nat.leb 65 n && Nat.leb n 90)%bool.

Definition is_lower (c : ascii) : bool :=
  let n := nat_of_ascii c in (Nat.leb 97 n && Nat.leb n 122)%bool.

Definition lower_char (c : ascii) : ascii :=
  if is_upper c then ascii_of_nat (nat_of_ascii c + 32) else c.

Definition upper_char (c : ascii) : ascii :=
  if is_lower c then ascii_of_nat (nat_of_ascii c - 32) else c.

(** [str.lower()].  Strings are byte strings here; the letters A-Z are
    folded and every other byte is kept, which is [str.lower] on the
    ASCII text the weather provider sends in its [main] field. *)
Fixpoint lower (s : string) : string :=
  match s with
  | EmptyString => EmptyString
  | String c rest => String (lower_char c) (lower rest)
  end.

(** [str.title()] on ASCII text: a letter that follows a non-letter is
    upper-cased, a letter that follows a letter is lower-cased. *)
Fixpoint title_from (prev_cased : bool) (s : string) : string :=
  match s with
  | EmptyString => EmptyString
  | String c rest =>
      let cased := (is_upper c || is_lower c)%bool in
      String (if prev_cased then lower_char c else upper_char c)
             (title_from cased rest)
  end.

Definition title (s : string) : string := title_from false s.

(** [str.strip()]: white space is taken off both ends (the ASCII white
    space characters). *)
Definition is_space (c : ascii) : bool :=
  let n := nat_of_ascii c in
  ((Nat.leb 9 n && Nat.leb n 13) || (Nat.leb 28 n && Nat.leb n 32))%bool.

Fixpoint lstrip (s : string) : string :=
  match s with
  | EmptyString => EmptyString
  | String c rest => if is_space c then lstrip rest else s
  end.

Fixpoint rstrip (s : string) : string :=
  match s with
  | EmptyString => EmptyString
  | String c rest =>
      match rstrip rest with
      | EmptyString => if is_space c then EmptyString else String c EmptyString
      | rest' => String c rest'
      end
  end.

Definition strip (s : string) : string := rstrip (lstrip s).

End PyStr.

(** ** Python numbers: [int], [float] and their printing *)

Module PyNum.

(** [str(n)] for an [int] *)
Definition string_of_Z (z : Z) : string :=
  DecimalString.NilZero.string_of_int (Z.to_int z).

Fixpoint zeros (n : nat) : string :=
  match n with
  | O => EmptyString
  | S n' => String "0" (zeros n')
  end.

(** the decimal digits of [z >= 0], left-padded with zeros to [n] places *)
Definition pad_digits (n : nat) (z : Z) : string :=
  let s := string_of_Z z in
  zeros (n - String.length s) ++ s.

Definition sign_str (neg : bool) : string := if neg then "-" else "".

(** Magnitudes from [overflow_bound] on round to infinity: it is the
    midpoint between the largest finite binary64 value and [2^1024]. *)
Definition overflow_bound : Z := 2 ^ 1024 - 2 ^ 970.

(** the binary64 value nearest to the integer [z], ties to even *)
Definition round_Z (z : Z) : float :=
  SF2Prim (binary_normalize prec emax z 0 false).

(** [float(z)] for an [int], or [None] where Python raises
    [OverflowError] *)
Definition float_of_Z (z : Z) : option float :=
  if overflow_bound <=? Z.abs z then None else Some (round_Z z).

(** The binary64 value nearest to the exact quotient [a / b], for
    [b <> 0].  The quotient is taken with more than 64 bits and a
    sticky bit, then rounded once. *)
Definition round_div (a b : Z) : float :=
  let n := Z.abs a in
  let d := Z.abs b in
  let neg := xorb (a <? 0) (b <? 0) in
  if n =? 0 then (if neg then neg_zero else zero) else
  let k := Z.max 0 (66 + Z.log2 d - Z.log2 n) in
  let q := Z.shiftl n k / d in
  let r := Z.shiftl n k mod d in
  let m := 2 * q + (if r =? 0 then 0 else 1) in
  SF2Prim (binary_normalize prec emax (if neg then - m else m) (- k - 1) false).

(** [a / b] on two [int]s, [b <> 0], or [None] where Python raises
    [OverflowError] *)
Definition Z_truediv (a b : Z) : option float :=
  if Z.abs b * overflow_bound <=? Z.abs a then None else Some (round_div a b).

(** Rounding the exact value [num / den] (both positive) to an integer,
    ties to even. *)
Definition round_half_even (num den : Z) : Z :=
  let q := num / den in
  let r := num mod den in
  match 2 * r ?= den with
  | Lt => q
  | Gt => q + 1
  | Eq => if Z.even q then q else q + 1
  end.

(** [format(x, ".<p>f")] for a [float]: the exact binary value rounded
    to [p] decimals, ties to even. *)
Definition format_fixed (p : nat) (x : float) : string :=
  let frac (n : Z) :=
    match p with
    | O => ""
    | _ => "." ++ pad_digits p (n mod 10 ^ Z.of_nat p)
    end in
  match Prim2SF x with
  | S754_nan => "nan"
  | S754_infinity s => sign_str s ++ "inf"
  | S754_zero s => sign_str s ++ "0" ++ frac 0
  | S754_finite s m e =>
      let num := Zpos m * 10 ^ Z.of_nat p * 2 ^ Z.max e 0 in
      let den := 2 ^ Z.max (- e) 0 in
      let n := round_half_even num den in
      sign_str s ++ string_of_Z (n / 10 ^ Z.of_nat p) ++ frac n
  end.

(** [int(x)] for a finite [float]: truncation towards zero. *)
Definition trunc_float (x : float) : option Z :=
  match Prim2SF x with
  | S754_nan | S754_infinity _ => None
  | S754_zero _ => Some 0
  | S754_finite s m e =>
      let a := if 0 <=? e then Zpos m * 2 ^ e else Zpos m / 2 ^ (- e) in
      Some (if s then - a else a)
  end.

(** a finite [float] rounded to an integer, ties to even *)
Definition rint_float (x : float) : Z :=
  match Prim2SF x with
  | S754_finite s m e =>
      let r := round_half_even (Zpos m * 2 ^ Z.max e 0) (2 ^ Z.max (- e) 0) in
      if s then - r else r
  | _ => 0
  end.

(** *** [repr(float)]: the shortest decimal that reads back as [x] *)

(** [d * 10^j] compared with [m * 2^g], exactly. *)
Definition cmp_dec_bin (d j m g : Z) : comparison :=
  (d * 10 ^ Z.max j 0 * 2 ^ Z.max (- g) 0
     ?= m * 10 ^ Z.max (- j) 0 * 2 ^ Z.max g 0).

(** Does the decimal [d * 10^j] read back as the float [m * 2^e]?  It
    does when it lies between the midpoints to the two neighbouring
    floats, a midpoint itself being read as the float of even mantissa. *)
Definition reads_back (m e d j : Z) : bool :=
  let lo := if (m =? 2 ^ 52) && (-1074 <? e) then 4 * m - 1 else 4 * m - 2 in
  let hi := 4 * m + 2 in
  let ok_lo := match cmp_dec_bin d j lo (e - 2) with
               | Gt => true | Eq => Z.even m | Lt => false end in
  let ok_hi := match cmp_dec_bin d j hi (e - 2) with
               | Lt => true | Eq => Z.even m | Gt => false end in
  ok_lo && ok_hi.

(** The [k] with [10^(k-1) <= m * 2^e < 10^k], searched around the
    estimate that the bit length gives. *)
Definition decimal_point (m e : Z) : Z :=
  let k0 := ((Z.log2 m + 1 + e) * 30103) / 100000 in
  let fits k := match cmp_dec_bin 1 (k - 1) m e, cmp_dec_bin 1 k m e with
                | (Lt | Eq), Gt => true
                | _, _ => false
                end in
  match List.find fits [k0 - 2; k0 - 1; k0; k0 + 1; k0 + 2; k0 + 3] with
  | Some k => k
  | None => k0
  end.

(** the shortest digits: [(d, j)] with [x] read back from [d * 10^j],
    trying 1, 2, ... significant digits *)
Fixpoint shortest_from (fuel : nat) (p : Z) (m e k : Z) : Z * Z :=
  let j := k - p in
  let num := m * 2 ^ Z.max e 0 * 10 ^ Z.max (- j) 0 in
  let den := 2 ^ Z.max (- e) 0 * 10 ^ Z.max j 0 in
  let dlo := num / den in
  let r := num mod den in
  let lo_ok := reads_back m e dlo j in
  let hi_ok := reads_back m e (dlo + 1) j in
  let pick :=
    if lo_ok && hi_ok then Some (if den <? 2 * r then dlo + 1 else dlo)
    else if lo_ok then Some dlo
    else if hi_ok then Some (dlo + 1)
    else None in
  match pick, fuel with
  | Some d, _ => (d, j)
  | None, S fuel' => shortest_from fuel' (p + 1) m e k
  | None, O => (dlo, j)
  end.

Fixpoint strip_zeros (fuel : nat) (d j : Z) : Z * Z :=
  match fuel with
  | O => (d, j)
  | S fuel' => if (d mod 10 =? 0) && negb (d =? 0)
               then strip_zeros fuel' (d / 10) (j + 1) else (d, j)
  end.

Definition exponent_str (x : Z) : string :=
  (if x <? 0 then "-" else "+") ++ pad_digits 2 (Z.abs x).

(** [repr(x)], which is also [str(x)], for a [float] *)
Definition float_repr (x : float) : string :=
  match Prim2SF x with
  | S754_nan => "nan"
  | S754_infinity s => sign_str s ++ "inf"
  | S754_zero s => sign_str s ++ "0.0"
  | S754_finite s m e =>
      let k := decimal_point (Zpos m) e in
      let '(d0, j0) := shortest_from 17 1 (Zpos m) e k in
      let '(d, j) := strip_zeros 20 d0 j0 in
      let ds := string_of_Z d in
      let n := Z.of_nat (String.length ds) in
      let decpt := j + n in
      sign_str s ++
      if (decpt <=? -4) || (16 <? decpt) then
        String.substring 0 1 ds
        ++ (if 1 <? n then "." ++ String.substring 1 (String.length ds - 1) ds else "")
        ++ "e" ++ exponent_str (decpt - 1)
      else if decpt <=? 0 then
        "0." ++ zeros (Z.to_nat (- decpt)) ++ ds
      else if n <=? decpt then
        ds ++ zeros (Z.to_nat (decpt - n)) ++ ".0"
      else
        String.substring 0 (Z.to_nat decpt) ds ++ "."
        ++ String.substring (Z.to_nat decpt) (String.length ds - Z.to_nat decpt) ds
  end.

End PyNum.

(** ** Python values, exceptions and the operations the program uses *)

Module Py.
Import PyStr PyNum.

(** What [json.load] and [Response.json] return.  A [dict] is the list
    of its items in insertion order, each key once. *)
Inductive PyVal : Type :=
| PNone
| PBool (b : bool)
| PInt (z : Z)
| PFloat (f : float)
| PStr (s : string)
| PList (l : list PyVal)
| PDict (d : list (string * PyVal)).

Inductive ExcClass : Type :=
| ValueError | TypeError | KeyError | IndexError | AttributeError
| OverflowError | ZeroDivisionError | OSError
| RequestException        (* requests: connection errors, timeouts, ... *)
| JSONDecodeError
| HTTPError.              (* requests.HTTPError *)

(** An HTTP response as the program looks at it: [raise_for_status]
    reads the status line, [json()] parses the body or raises. *)
Record Response : Type := mkResponse {
  status_code : Z;
  reason : string;
  url : string;
  body_json : string + PyVal      (* inl: the JSONDecodeError message *)
}.

Record PyExc : Type := mkExc {
  exc_class : ExcClass;
  exc_str : string;               (* str(e) *)
  exc_response : option Response  (* e.response, for request errors *)
}.

Definition exc (c : ExcClass) (msg : string) : PyExc := mkExc c msg None.

(** A computation that returns or raises. *)
Definition Res (A : Type) : Type := (PyExc + A)%type.

Definition ret {A} (x : A) : Res A := inr x.
Definition raise {A} (e : PyExc) : Res A := inl e.
Definition bind {A B} (r : Res A) (k : A -> Res B) : Res B :=
  match r with
  | inr x => k x
  | inl e => inl e
  end.

Definition type_name (v : PyVal) : string :=
  match v with
  | PNone => "NoneType"
  | PBool _ => "bool"
  | PInt _ => "int"
  | PFloat _ => "float"
  | PStr _ => "str"
  | PList _ => "list"
  | PDict _ => "dict"
  end.

(** *** [str] and [repr] *)

Definition dquote : ascii := ascii_of_nat 34.
Definition squote : ascii := ascii_of_nat 39.
Definition backslash : ascii := ascii_of_nat 92.

Fixpoint has_char (c : ascii) (s : string) : bool :=
  match s with
  | EmptyString => false
  | String a rest => if Ascii.eqb a c then true else has_char c rest
  end.

Definition hex_digit (n : nat) : ascii :=
  ascii_of_nat (if Nat.ltb n 10 then 48 + n else 87 + n).

Fixpoint escape (q : ascii) (s : string) : string :=
  match s with
  | EmptyString => EmptyString
  | String c rest =>
      let n := nat_of_ascii c in
      let tail := escape q rest in
      if (Ascii.eqb c q || Ascii.eqb c backslash)%bool then String backslash (String c tail)
      else if Nat.eqb n 9 then String backslash (String "t" tail)
      else if Nat.eqb n 10 then String backslash (String "n" tail)
      else if Nat.eqb n 13 then String backslash (String "r" tail)
      else if (Nat.ltb n 32 || Nat.eqb n 127)%bool then
        String backslash (String "x"
          (String (hex_digit (Nat.div n 16)) (String (hex_digit (Nat.modulo n 16)) tail)))
      else String c tail
  end.

(** [repr(s)] for a [str]: single quotes unless the text has a single
    quote and no double quote.  Bytes above 127 stand for the UTF-8
    encoding of printable characters and are kept. *)
Definition str_repr (s : string) : string :=
  let q := if (has_char squote s && negb (has_char dquote s))%bool
           then dquote else squote in
  String q (escape q s ++ String q EmptyString).

Fixpoint py_repr (v : PyVal) : string :=
  match v with
  | PNone => "None"
  | PBool true => "True"
  | PBool false => "False"
  | PInt z => string_of_Z z
  | PFloat f => float_repr f
  | PStr s => str_repr s
  | PList l =>
      "[" ++ (fix items (l : list PyVal) : string :=
                match l with
                | [] => ""
                | x :: r => py_repr x ++ match r with
                                         | [] => ""
                                         | _ :: _ => ", " ++ items r
                                         end
                end) l ++ "]"
  | PDict d =>
      "{" ++ (fix items (d : list (string * PyVal)) : string :=
                match d with
                | [] => ""
                | (k, x) :: r => str_repr k ++ ": " ++ py_repr x
                                 ++ match r with
                                    | [] => ""
                                    | _ :: _ => ", " ++ items r
                                    end
                end) d ++ "}"
  end.

(** [str(v)], what an f-string field [{v}] prints *)
Definition py_str (v : PyVal) : string :=
  match v with
  | PStr s => s
  | _ => py_repr v
  end.

(** *** Truth value, [x or default] *)

Definition truthy (v : PyVal) : bool :=
  match v with
  | PNone => false
  | PBool b => b
  | PInt z => negb (z =? 0)
  | PFloat f => negb (PrimFloat.eqb f zero)
  | PStr s => negb (String.eqb s "")
  | PList l => match l with [] => false | _ => true end
  | PDict d => match d with [] => false | _ => true end
  end.

(** *** Subscription [cur[k]] and [dict.get] *)

Inductive Key : Type := KStr (s : string) | KInt (i : Z).

Fixpoint lookup (k : string) (d : list (string * PyVal)) : option PyVal :=
  match d with
  | [] => None
  | (k', v) :: rest => if String.eqb k' k then Some v else lookup k rest
  end.

Definition key_repr (k : Key) : string :=
  match k with
  | KStr s => str_repr s
  | KInt i => string_of_Z i
  end.

(** the position a Python index denotes in a sequence of length [n] *)
Definition norm_index (n : nat) (i : Z) : option nat :=
  let i' := if i <? 0 then i + Z.of_nat n else i in
  if (0 <=? i') && (i' <? Z.of_nat n) then Some (Z.to_nat i') else None.

Definition getitem (cur : PyVal) (k : Key) : Res PyVal :=
  match cur, k with
  | PDict d, KStr s =>
      match lookup s d with
      | Some v => ret v
      | None => raise (exc KeyError (key_repr k))
      end
  | PDict _, KInt _ => raise (exc KeyError (key_repr k))
  | PList l, KInt i =>
      match norm_index (List.length l) i with
      | Some n => match nth_error l n with
                  | Some v => ret v
                  | None => raise (exc IndexError "list index out of range")
                  end
      | None => raise (exc IndexError "list index out of range")
      end
  | PList _, KStr _ =>
      raise (exc TypeError "list indices must be integers or slices, not str")
  | PStr s, KInt i =>
      match norm_index (String.length s) i with
      | Some n => match String.get n s with
                  | Some c => ret (PStr (String c EmptyString))
                  | None => raise (exc IndexError "string index out of range")
                  end
      | None => raise (exc IndexError "string index out of range")
      end
  | PStr _, KStr _ =>
      raise (exc TypeError "string indices must be integers, not 'str'")
  | _, _ =>
      raise (exc TypeError ("'" ++ type_name cur ++ "' object is not subscriptable"))
  end.

Definition no_attribute {A} (v : PyVal) (attr : string) : Res A :=
  raise (exc AttributeError
           ("'" ++ type_name v ++ "' object has no attribute '" ++ attr ++ "'")).

(** [v.get(k, default)]: only a [dict] has the method. *)
Definition get (v : PyVal) (k : string) (default : PyVal) : Res PyVal :=
  match v with
  | PDict d => ret (match lookup k d with Some x => x | None => default end)
  | _ => no_attribute v "get"
  end.

(** [v.lower()] and [v.title()]: only a [str] has the methods. *)
Definition lower_method (v : PyVal) : Res string :=
  match v with
  | PStr s => ret (lower s)
  | _ => no_attribute v "lower"
  end.

Definition title_method (v : PyVal) : Res string :=
  match v with
  | PStr s => ret (title s)
  | _ => no_attribute v "title"
  end.

(** *** Arithmetic on [int], [float] and [bool] *)

Inductive Num : Type := NInt (z : Z) | NFloat (f : float).

Definition as_num (v : PyVal) : option Num :=
  match v with
  | PBool b => Some (NInt (if b then 1 else 0))
  | PInt z => Some (NInt z)
  | PFloat f => Some (NFloat f)
  | _ => None
  end.

Definition of_num (n : Num) : PyVal :=
  match n with
  | NInt z => PInt z
  | NFloat f => PFloat f
  end.

Definition to_float (n : Num) : Res float :=
  match n with
  | NFloat f => ret f
  | NInt z => match float_of_Z z with
              | Some f => ret f
              | None => raise (exc OverflowError "int too large to convert to float")
              end
  end.

Definition unsupported {A} (op : string) (a b : PyVal) : Res A :=
  raise (exc TypeError ("unsupported operand type(s) for " ++ op ++ ": '"
                        ++ type_name a ++ "' and '" ++ type_name b ++ "'")).

(** an operator that stays in [int] on two [int]s and otherwise works
    on the operands converted to [float] *)
Definition arith (zop : Z -> Z -> Z) (fop : float -> float -> float)
           (a b : Num) : Res Num :=
  match a, b with
  | NInt x, NInt y => ret (NInt (zop x y))
  | _, _ => bind (to_float a) (fun x =>
            bind (to_float b) (fun y => ret (NFloat (fop x y))))
  end.

Definition num_add := arith Z.add PrimFloat.add.
Definition num_sub := arith Z.sub PrimFloat.sub.
Definition num_mul := arith Z.mul PrimFloat.mul.

(** [a / b] *)
Definition num_truediv (a b : Num) : Res Num :=
  match a, b with
  | NInt x, NInt y =>
      if y =? 0 then raise (exc ZeroDivisionError "division by zero")
      else match Z_truediv x y with
           | Some f => ret (NFloat f)
           | None => raise (exc OverflowError
                              "integer division result too large for a float")
           end
  | _, _ => bind (to_float a) (fun x =>
            bind (to_float b) (fun y =>
              if PrimFloat.eqb y zero
              then raise (exc ZeroDivisionError "float division by zero")
              else ret (NFloat (PrimFloat.div x y))))
  end.

(** An [int] against a [float], compared on the exact values;
    [None] against NaN. *)
Definition cmp_Z_float (z : Z) (f : float) : option comparison :=
  match Prim2SF f with
  | S754_nan => None
  | S754_infinity s => Some (if s then Gt else Lt)
  | S754_zero _ => Some (z ?= 0)
  | S754_finite s m e =>
      let v := if s then Zneg m else Zpos m in
      Some (if 0 <=? e then z ?= v * 2 ^ e else z * 2 ^ (- e) ?= v)
  end.

(** [a < b] *)
Definition num_lt (a b : Num) : bool :=
  match a, b with
  | NInt x, NInt y => x <? y
  | NFloat x, NFloat y => PrimFloat.ltb x y
  | NInt x, NFloat y => match cmp_Z_float x y with Some Lt => true | _ => false end
  | NFloat x, NInt y => match cmp_Z_float y x with Some Gt => true | _ => false end
  end.

(** [min(a, b)] and [max(a, b)]: the first argument unless the second
    is strictly smaller (larger). *)
Definition num_min (a b : Num) : Num := if num_lt b a then b else a.
Definition num_max (a b : Num) : Num := if num_lt a b then b else a.

(** [int(x)] *)
Definition num_int (a : Num) : Res Z :=
  match a with
  | NInt z => ret z
  | NFloat f =>
      match trunc_float f with
      | Some z => ret z
      | None => if PrimFloat.eqb f f
                then raise (exc OverflowError "cannot convert float infinity to integer")
                else raise (exc ValueError "cannot convert float NaN to integer")
      end
  end.

(** [a - b] and [a / b] on arbitrary values: numbers only. *)
Definition py_sub (a b : PyVal) : Res Num :=
  match as_num a, as_num b with
  | Some x, Some y => num_sub x y
  | _, _ => unsupported "-" a b
  end.

Definition py_truediv (a b : PyVal) : Res Num :=
  match as_num a, as_num b with
  | Some x, Some y => num_truediv x y
  | _, _ => unsupported "/" a b
  end.

(** [a + b]: numbers add, two strings and two lists concatenate. *)
Definition py_add (a b : PyVal) : Res PyVal :=
  match as_num a, as_num b with
  | Some x, Some y => bind (num_add x y) (fun n => ret (of_num n))
  | _, _ =>
      match a, b with
      | PStr s, PStr s' => ret (PStr (s ++ s'))
      | PList l, PList l' => ret (PList (l ++ l'))
      | _, _ => unsupported "+" a b
      end
  end.

(** [format(v, ".<p>f")], the f-string field [{v:.<p>f}] *)
Definition format_f (p : nat) (v : PyVal) : Res string :=
  match as_num v with
  | Some n => bind (to_float n) (fun f => ret (format_fixed p f))
  | None =>
      match v with
      | PStr _ => raise (exc ValueError
                           "Unknown format code 'f' for object of type 'str'")
      | _ => raise (exc TypeError ("unsupported format string passed to "
                                   ++ type_name v ++ ".__format__"))
      end
  end.

(** *** [datetime] *)

(** The host: its local time zone (seconds east of UTC at a given UTC
    second) and its clock (the current UTC second). *)
Record Host : Type := mkHost {
  tz_local : Z -> Z;
  clock : Z
}.

(** A [datetime] object, by the wall-clock microseconds it shows. *)
Record datetime : Type := mkDatetime { wall_us : Z }.

Definition min_second : Z := -62135596800.   (* 0001-01-01 00:00:00 *)
Definition max_second : Z := 253402300799.   (* 9999-12-31 23:59:59 *)

(** The microseconds a timestamp denotes (the fraction of a [float] is
    rounded to the microsecond, ties to even), where the year is between
    1 and 9999.
    Outside that range the call raises; the class of the exception
    depends on the platform and is always an [Exception]. *)
Definition timestamp_us (v : PyVal) : Res Z :=
  match as_num v with
  | None => raise (exc TypeError ("'" ++ type_name v
                                  ++ "' object cannot be interpreted as an integer"))
  | Some n =>
      bind (match n with
            | NInt z => ret (z * 1000000)
            | NFloat f =>
                match Prim2SF f with
                | S754_nan =>
                    raise (exc ValueError "cannot convert float NaN to integer")
                | S754_infinity _ =>
                    raise (exc OverflowError "cannot convert float infinity to integer")
                | _ =>
                    (* modf, the fraction times 1e6 in binary64, rounded *)
                    match trunc_float f with
                    | Some whole =>
                        let frac := PrimFloat.sub f (round_Z whole) in
                        ret (whole * 1000000
                             + rint_float (PrimFloat.mul frac 1000000))
                    | None => ret 0
                    end
                end
            end) (fun us =>
      if (min_second * 1000000 <=? us) && (us <? (max_second + 1) * 1000000)
      then ret us
      else raise (exc OverflowError "timestamp out of range for platform time_t"))
  end.

Definition to_local (h : Host) (us : Z) : datetime :=
  mkDatetime (us + tz_local h (us / 1000000) * 1000000).

(** [datetime.fromtimestamp(v, timezone.utc).astimezone()] *)
Definition fromtimestamp_utc_astimezone (h : Host) (v : PyVal) : Res datetime :=
  bind (timestamp_us v) (fun us => ret (to_local h us)).

(** [datetime.fromtimestamp(v)] *)
Definition fromtimestamp (h : Host) (v : PyVal) : Res datetime :=
  bind (timestamp_us v) (fun us => ret (to_local h us)).

(** [d.strftime('%H:%M')] *)
Definition strftime_HM (d : datetime) : string :=
  let s := wall_us d / 1000000 in
  pad_digits 2 ((s / 3600) mod 24) ++ ":" ++ pad_digits 2 ((s / 60) mod 60).

End Py.

(** ** The condition renderer: class [WeatherCanvas] *)

Module WeatherCanvas.
Import PyStr.

(** What a draw method puts on the canvas.  Every [_draw_*] method is
    kept as one composite item carrying the arguments it was called
    with; the ovals, lines and rectangles inside are fixed geometry. *)
Inductive Shape : Type :=
| Sun (t : Z)
| Cloud (cover : float)
| Rain (t : Z)
| Snow (t : Z)
| Fog (t : Z)
| Lightning.

(** The [tk.Canvas]: alive with its items, or destroyed with the
    window, after which every call on it raises [TclError]. *)
Inductive Canvas : Type :=
| Live (items : list Shape)
| Destroyed.

Definition canvas_items (c : Canvas) : list Shape :=
  match c with
  | Live items => items
  | Destroyed => []
  end.

Inductive TclError : Type := InvalidCommandName.

(** [canvas.delete("all")] *)
Definition delete_all (c : Canvas) : TclError + Canvas :=
  match c with
  | Live _ => inr (Live [])
  | Destroyed => inl InvalidCommandName
  end.

(** a [canvas.create_*] group issued by one draw method *)
Definition create (sh : Shape) (c : Canvas) : TclError + Canvas :=
  match c with
  | Live items => inr (Live (items ++ [sh]))
  | Destroyed => inl InvalidCommandName
  end.

Record t : Type := mk {
  width : Z;
  height : Z;
  canvas : Canvas;
  _stop : bool;
  _anim_t : Z;
  condition : string
}.

Definition with_canvas (self : t) (c : Canvas) : t :=
  mk (width self) (height self) c (_stop self) (_anim_t self) (condition self).

(** [__init__], after the canvas widget has been created. *)
Definition init (w h : Z) : t := mk w h (Live []) false 0 "clear".

(** [set_condition]: [condition] is [None] or a [str]. *)
Definition set_condition (self : t) (cond : option string) : t :=
  let c := match cond with
           | None | Some EmptyString => "clear"   (* condition or "clear" *)
           | Some s => s
           end in
  let cv := match delete_all (canvas self) with
            | inr cv' => cv'
            | inl _ => canvas self                 (* except Exception: pass *)
            end in
  mk (width self) (height self) cv (_stop self) 0 (lower c).

(** [stop_animation] *)
Definition stop_animation (self : t) : t :=
  let cv := match delete_all (canvas self) with
            | inr cv' => cv'
            | inl _ => canvas self
            end in
  mk (width self) (height self) cv true (_anim_t self) (condition self).

Definition andThen (r : TclError + Canvas) (k : Canvas -> TclError + Canvas)
  : TclError + Canvas :=
  match r with
  | inr c => k c
  | inl e => inl e
  end.

Definition _draw_sun (tk : Z) := create (Sun tk).
Definition _draw_cloud (cover : float) := create (Cloud cover).
Definition _draw_rain (tk : Z) := create (Rain tk).
Definition _draw_snow (tk : Z) := create (Snow tk).
Definition _draw_fog (tk : Z) := create (Fog tk).
Definition _draw_lightning := create Lightning.

(** default of [_draw_cloud(self, cover=0.5)] *)
Definition default_cover : float := 0.5%float.

(** [_step]: one frame.  The result is the canvas after the frame, or
    the exception that left the method. *)
Definition _step (self : t) : TclError + Canvas :=
  let cond := condition self in
  andThen (delete_all (canvas self)) (fun c =>
  if (py_in "rain" cond || py_in "drizzle" cond)%bool then
    andThen (_draw_cloud default_cover c) (_draw_rain (_anim_t self))
  else if py_in "snow" cond then
    andThen (_draw_cloud default_cover c) (_draw_snow (_anim_t self))
  else if py_in "cloud" cond then
    _draw_cloud 0.7%float c
  else if (py_in "fog" cond || py_in "mist" cond || py_in "haze" cond)%bool then
    _draw_fog (_anim_t self) c
  else if (py_in "thunder" cond || py_in "storm" cond)%bool then
    andThen (_draw_cloud default_cover c) (fun c' =>
      if ((_anim_t self / 15) mod 10 =? 0) then _draw_lightning c' else inr c')
  else
    _draw_sun (_anim_t self) c).

(** One turn of the [while not self._stop] loop of [_anim_loop]:
    a frame whose exception is swallowed, the sleep, and the tick. *)
Definition anim_turn (self : t) : t :=
  let self' := match _step self with
               | inr c => with_canvas self c
               | inl _ => self
               end in
  mk (width self') (height self') (canvas self') (_stop self')
     (_anim_t self' + 1) (condition self').

(** [_anim_loop], run for at most [n] turns: the loop leaves as soon as
    [_stop] is set. *)
Fixpoint _anim_loop (n : nat) (self : t) : t :=
  match n with
  | O => self
  | S n' => if _stop self then self else _anim_loop n' (anim_turn self)
  end.

End WeatherCanvas.

(** ** Module-level utilities *)

Module Util.
Import PyStr PyNum Py.

(** The favourites file as [load_favorites] meets it. *)
Inductive File : Type :=
| Missing                          (* open raises FileNotFoundError *)
| Unreadable (e : PyExc)           (* open or read raises: no permission,
                                      a directory, bytes that are not UTF-8 *)
| Text (parsed : string + PyVal).  (* readable text, by what json.load
                                      makes of it: inl is the message of
                                      its JSONDecodeError *)

(** [open(FAVORITES_FILE, "r", encoding="utf-8")] then [json.load(f)] *)
Definition open_and_load (f : File) : Res PyVal :=
  match f with
  | Missing =>
      raise (exc OSError "[Errno 2] No such file or directory: 'favorites.json'")
  | Unreadable e => raise e
  | Text (inl msg) => raise (exc JSONDecodeError msg)
  | Text (inr v) => ret v
  end.

(** [load_favorites]: the result of the call, returned or raised. *)
Definition load_favorites (f : File) : Res PyVal :=
  match open_and_load f with
  | inr v => ret v
  | inl _ => ret (PList [])        (* except Exception: return [] *)
  end.

(** [safe_get(d, *keys, default=default)] *)
Definition safe_get (d : PyVal) (keys : list Key) (default : PyVal) : PyVal :=
  match fold_left (fun cur k => bind cur (fun c => getitem c k)) keys (ret d) with
  | inr cur => cur
  | inl _ => default               (* except Exception: return default *)
  end.

(** [meters_per_sec_to_kmh(ms)] *)
Definition meters_per_sec_to_kmh (ms : PyVal) : float :=
  let product : Res float :=
    match as_num ms with
    | Some n => bind (to_float n) (fun x => ret (PrimFloat.mul x 3.6%float))
    | None => @unsupported float "*" ms (PFloat 3.6%float)
    end in
  match product with
  | inr x => x
  | inl _ => zero                  (* except Exception: return 0.0 *)
  end.

(** [timestamp_to_local(dt_ts, tz_offset)] *)
Definition timestamp_to_local (h : Host) (dt_ts tz_offset : PyVal) : Res datetime :=
  match bind (py_add dt_ts tz_offset) (fromtimestamp_utc_astimezone h) with
  | inr d => ret d
  | inl _ => fromtimestamp h dt_ts (* except Exception: ... *)
  end.

End Util.

(** ** The fetch worker: class [WeatherFetcher] *)

Module WeatherFetcher.
Import PyStr PyNum Py Util.

Definition OWM_WEATHER_URL := "https://api.openweathermap.org/data/2.5/weather".
Definition OWM_ONECALL_URL := "https://api.openweathermap.org/data/2.5/onecall".

(** [requests.get(url, params=params, timeout=10)]: the provider and
    the network between, answering a request with a response or with
    the exception that [requests] raises (no connection, time-out). *)
Definition Network : Type := string -> list (string * PyVal) -> Res Response.

(** [r.raise_for_status()] *)
Definition raise_for_status (r : Response) : Res unit :=
  let msg kind := string_of_Z (status_code r) ++ " " ++ kind ++ " Error: "
                  ++ reason r ++ " for url: " ++ url r in
  if (400 <=? status_code r) && (status_code r <? 500)
  then raise (mkExc HTTPError (msg "Client") (Some r))
  else if (500 <=? status_code r) && (status_code r <? 600)
  then raise (mkExc HTTPError (msg "Server") (Some r))
  else ret tt.

(** [r.json()] *)
Definition json (r : Response) : Res PyVal :=
  match body_json r with
  | inr v => ret v
  | inl msg => raise (mkExc JSONDecodeError msg None)
  end.

(** The dictionary [combined] that [fetch] returns: its keys are fixed,
    so it is a record. *)
Record Combined : Type := mkCombined {
  location_name : string;
  lat : PyVal;
  lon : PyVal;
  tz_offset : PyVal;
  current : PyVal;
  hourly : PyVal;
  daily : PyVal;
  raw_weather : PyVal
}.

Record t : Type := mk { api_key : string }.

Local Notation "x <- m ;; k" := (bind m (fun x => k))
  (at level 61, m at next level, right associativity).

(** [fetch] *)
Definition fetch (net : Network) (self : t) (location : string) : Res Combined :=
  if String.eqb (api_key self) "" then
    raise (exc ValueError "OpenWeatherMap API key not set.")
  else
  let params := [("q", PStr location); ("appid", PStr (api_key self))] in
  r <- net OWM_WEATHER_URL params ;;
  _ <- raise_for_status r ;;
  data <- json r ;;
  let lat := safe_get data [KStr "coord"; KStr "lat"] PNone in
  let lon := safe_get data [KStr "coord"; KStr "lon"] PNone in
  let tz_offset := safe_get data [KStr "timezone"] (PInt 0) in
  let oc_params := [("lat", lat); ("lon", lon);
                    ("exclude", PStr "minutely,alerts");
                    ("appid", PStr (api_key self));
                    ("units", PStr "metric")] in
  r2 <- net OWM_ONECALL_URL oc_params ;;
  _ <- raise_for_status r2 ;;
  oc <- json r2 ;;
  (* the empty string is passed as a further key, not as the default *)
  let name := safe_get data [KStr "name"; KStr ""] PNone in
  let country := safe_get data [KStr "sys"; KStr "country"; KStr ""] PNone in
  cur <- get oc "current" (PDict []) ;;
  hourly <- get oc "hourly" (PList []) ;;
  daily <- get oc "daily" (PList []) ;;
  ret (mkCombined (py_str name ++ ", " ++ py_str country)
                  lat lon tz_offset cur hourly daily data).

End WeatherFetcher.

(** ** The dashboard: class [WeatherDashboard] *)

Module Dashboard.
Import PyStr PyNum Py Util.
Import WeatherFetcher (Combined, Network, fetch, json,
                       location_name, tz_offset, current, hourly).

(** The labels whose text the program sets. *)
Inductive Label : Type :=
| lbl_location | lbl_temp | lbl_feels | lbl_descr
| stat_humidity | stat_wind | stat_pressure | stat_visibility
| sunrise_label | sunset_label | status_label.

Definition Label_eqb (a b : Label) : bool :=
  match a, b with
  | lbl_location, lbl_location | lbl_temp, lbl_temp | lbl_feels, lbl_feels
  | lbl_descr, lbl_descr | stat_humidity, stat_humidity | stat_wind, stat_wind
  | stat_pressure, stat_pressure | stat_visibility, stat_visibility
  | sunrise_label, sunrise_label | sunset_label, sunset_label
  | status_label, status_label => true
  | _, _ => false
  end.

(** Items of [sun_canvas].  The disc that marks the sun is kept by the
    angle it is placed at.  Tk is taken to accept every number it is
    handed; NaN, the one it might refuse, comes only from infinite
    timestamps, which do not pass [timestamp_to_local]. *)
Inductive SunItem : Type :=
| Arc (x0 y0 x1 y1 : Z) (start : Z) (extent : Num) (fill outline : string)
| SunDisc (cx cy r : Z) (angle_deg : Num) (fill : string)
| CanvasText (x y : Z) (text : string) (fill : string).

(** A card of the hourly forecast: a frame gridded in a column with
    the labels packed into it, in order. *)
Record Frame : Type := mkFrame {
  column : Z;
  labels : list string
}.

(** What the worker puts on the queue: [("ok", data)] or
    [("error", message)]. *)
Inductive Msg : Type :=
| Ok (data : Combined)
| Error (message : string).

(** Callbacks registered with [self.after]. *)
Inductive Callback : Type := CbOnSearch | CbProcessQueue.

Record t : Type := mk {
  search_var : string;
  text : Label -> string;
  sun_canvas : list SunItem;
  sun_canvas_width : Z;            (* winfo_width() *)
  sun_canvas_height : Z;           (* winfo_height() *)
  hourly_container : list Frame;
  weather_canvas : WeatherCanvas.t;
  loose_labels : list string;      (* labels created and never placed *)
  fetcher : WeatherFetcher.t;
  queue : list Msg;
  current_data : option Combined;
  favorites : PyVal;
  fav_menu_values : PyVal;
  after_calls : list (Z * Callback);   (* pending timers *)
  threads : list string                (* running workers, by location *)
}.

Definition with_text (s : t) (f : Label -> string) : t :=
  mk (search_var s) f (sun_canvas s) (sun_canvas_width s) (sun_canvas_height s)
     (hourly_container s) (weather_canvas s) (loose_labels s) (fetcher s)
     (queue s) (current_data s) (favorites s) (fav_menu_values s)
     (after_calls s) (threads s).

Definition with_sun_canvas (s : t) (c : list SunItem) : t :=
  mk (search_var s) (text s) c (sun_canvas_width s) (sun_canvas_height s)
     (hourly_container s) (weather_canvas s) (loose_labels s) (fetcher s)
     (queue s) (current_data s) (favorites s) (fav_menu_values s)
     (after_calls s) (threads s).

Definition with_hourly_container (s : t) (c : list Frame) : t :=
  mk (search_var s) (text s) (sun_canvas s) (sun_canvas_width s) (sun_canvas_height s)
     c (weather_canvas s) (loose_labels s) (fetcher s)
     (queue s) (current_data s) (favorites s) (fav_menu_values s)
     (after_calls s) (threads s).

Definition with_weather_canvas (s : t) (c : WeatherCanvas.t) : t :=
  mk (search_var s) (text s) (sun_canvas s) (sun_canvas_width s) (sun_canvas_height s)
     (hourly_container s) c (loose_labels s) (fetcher s)
     (queue s) (current_data s) (favorites s) (fav_menu_values s)
     (after_calls s) (threads s).

Definition with_loose_labels (s : t) (l : list string) : t :=
  mk (search_var s) (text s) (sun_canvas s) (sun_canvas_width s) (sun_canvas_height s)
     (hourly_container s) (weather_canvas s) l (fetcher s)
     (queue s) (current_data s) (favorites s) (fav_menu_values s)
     (after_calls s) (threads s).

Definition with_queue (s : t) (q : list Msg) : t :=
  mk (search_var s) (text s) (sun_canvas s) (sun_canvas_width s) (sun_canvas_height s)
     (hourly_container s) (weather_canvas s) (loose_labels s) (fetcher s)
     q (current_data s) (favorites s) (fav_menu_values s)
     (after_calls s) (threads s).

Definition with_current_data (s : t) (d : option Combined) : t :=
  mk (search_var s) (text s) (sun_canvas s) (sun_canvas_width s) (sun_canvas_height s)
     (hourly_container s) (weather_canvas s) (loose_labels s) (fetcher s)
     (queue s) d (favorites s) (fav_menu_values s)
     (after_calls s) (threads s).

Definition with_after_calls (s : t) (a : list (Z * Callback)) : t :=
  mk (search_var s) (text s) (sun_canvas s) (sun_canvas_width s) (sun_canvas_height s)
     (hourly_container s) (weather_canvas s) (loose_labels s) (fetcher s)
     (queue s) (current_data s) (favorites s) (fav_menu_values s)
     a (threads s).

Definition with_threads (s : t) (l : list string) : t :=
  mk (search_var s) (text s) (sun_canvas s) (sun_canvas_width s) (sun_canvas_height s)
     (hourly_container s) (weather_canvas s) (loose_labels s) (fetcher s)
     (queue s) (current_data s) (favorites s) (fav_menu_values s)
     (after_calls s) l.

(** *** Methods run on the object: state that survives an exception *)

Definition M (A : Type) : Type := t -> Res A * t.

Definition mret {A} (x : A) : M A := fun s => (inr x, s).

Definition mbind {A B} (m : M A) (k : A -> M B) : M B :=
  fun s => match m s with
           | (inr x, s') => k x s'
           | (inl e, s') => (inl e, s')
           end.

Definition lift {A} (r : Res A) : M A := fun s => (r, s).

Definition modify (f : t -> t) : M unit := fun s => (inr tt, f s).

(** [try: body except Exception as e: handler(e)] *)
Definition try_except {A} (body : M A) (handler : PyExc -> M A) : M A :=
  fun s => match body s with
           | (inr x, s') => (inr x, s')
           | (inl e, s') => handler e s'
           end.

Notation "x <- m ;; k" := (mbind m (fun x => k))
  (at level 61, m at next level, right associativity).
Notation "m ;; k" := (mbind m (fun _ => k))
  (at level 61, right associativity).

(** [label.configure(text=s)] *)
Definition configure (l : Label) (s : string) : M unit :=
  modify (fun st => with_text st (fun l' => if Label_eqb l' l then s else text st l')).

(** [set_status] *)
Definition set_status (s : string) : M unit := configure status_label s.

(** [self.after(ms, callback)] *)
Definition after (ms : Z) (cb : Callback) : M unit :=
  modify (fun st => with_after_calls st (after_calls st ++ [(ms, cb)])).

(** [self.queue.put(m)]: the queue is unbounded, the call returns. *)
Definition queue_put (m : Msg) : M unit :=
  modify (fun st => with_queue st (queue st ++ [m])).

(** *** The worker's thread body *)

(** [_background_fetch]: the result is [inl e] when [e] leaves the
    thread body. *)
Definition _background_fetch (net : Network) (loc : string) : M unit :=
  fun self =>
  try_except
    (data <- lift (fetch net (fetcher self) loc) ;;
     queue_put (Ok data))
    (fun e =>
       if match exc_class e with HTTPError => true | _ => false end then
         let he := e in
         let from_body : Res PyVal :=
           match exc_response he with
           | None => no_attribute PNone "json"
           | Some resp => bind (json resp) (fun body =>
                            get body "message" (PStr (exc_str he)))
           end in
         let msg := match from_body with
                    | inr v => py_str v
                    | inl _ => exc_str he      (* except Exception: msg = str(he) *)
                    end in
         queue_put (Error ("API error: " ++ msg))
       else
         queue_put (Error ("Fetch error: " ++ exc_str e)))
    self.

(** *** Drawing the daylight arc *)

Definition sun_create (i : SunItem) : M unit :=
  modify (fun st => with_sun_canvas st (sun_canvas st ++ [i])).

Definition sun_delete_all : M unit :=
  modify (fun st => with_sun_canvas st []).

(** [math.radians], [math.cos] and [math.sin] raise on an infinite
    angle; the point itself is kept by its angle. *)
Definition check_angle (a : Num) : Res unit :=
  match a with
  | NInt _ => ret tt
  | NFloat f => match Prim2SF f with
                | S754_infinity _ => raise (exc ValueError "math domain error")
                | _ => ret tt
                end
  end.

(** The value of [pct] in [_draw_sun_arc], given [now_ts]. *)
Definition daylight_pct (sunrise_ts sunset_ts : PyVal) (now_ts : Z) : Res Num :=
  bind (py_sub sunset_ts sunrise_ts) (fun total =>
  bind (py_sub (PInt now_ts) sunrise_ts) (fun since =>
  let elapsed := num_max (NInt 0) (num_min since total) in
  if num_lt (NInt 0) total then num_truediv elapsed total else ret (NInt 0))).

(** [_draw_sun_arc] *)
Definition _draw_sun_arc (host : Host) (sunrise_ts sunset_ts tz_off : PyVal) : M unit :=
  try_except
    (sun_delete_all ;;
     fun self =>
     (let w := if sun_canvas_width self =? 0 then 360 else sun_canvas_width self in
      let h := if sun_canvas_height self =? 0 then 60 else sun_canvas_height self in
      let cx := w / 2 in
      let cy := h in
      let r := Z.min (w / 2 - 8) 80 in
      sun_create (Arc (cx - r) (cy - r) (cx + r) (cy + r) 180 (NInt 180)
                      "#111827" "#374151") ;;
      let now_ts := clock host in
      pct <- lift (daylight_pct sunrise_ts sunset_ts now_ts) ;;
      fill_extent <- lift (num_mul pct (NInt 180)) ;;
      sun_create (Arc (cx - r) (cy - r) (cx + r) (cy + r) 180 fill_extent
                      "#f59e0b" "") ;;
      angle_deg <- lift (num_add (NInt 180) fill_extent) ;;
      lift (check_angle angle_deg) ;;
      sun_create (SunDisc cx cy r angle_deg "#FFD166") ;;
      scaled <- lift (num_mul pct (NInt 100)) ;;
      whole <- lift (num_int scaled) ;;
      let perc_label := string_of_Z whole ++ "% daylight" in
      sun_create (CanvasText 12 12 perc_label "#e5e7eb")) self)
    (fun _ => mret tt).              (* except Exception: pass *)

(** *** Applying a snapshot to the display *)

Definition set_condition (c : string) : M unit :=
  modify (fun st => with_weather_canvas st
                      (WeatherCanvas.set_condition (weather_canvas st) (Some c))).

(** [widget.destroy()] for every child of [hourly_container] *)
Definition destroy_hourly : M unit :=
  modify (fun st => with_hourly_container st []).

(** [ctk.CTkFrame(self.hourly_container, ...)] then [frame.grid(column=i)] *)
Definition new_frame (i : Z) : M unit :=
  modify (fun st => with_hourly_container st (hourly_container st ++ [mkFrame i []])).

Fixpoint pack_in_last (s : string) (fs : list Frame) : list Frame :=
  match fs with
  | [] => []
  | [f] => [mkFrame (column f) (labels f ++ [s])]
  | f :: rest => f :: pack_in_last s rest
  end.

(** [ctk.CTkLabel(frame, text=s).pack()] on the frame just created *)
Definition pack_label (s : string) : M unit :=
  modify (fun st => with_hourly_container st (pack_in_last s (hourly_container st))).

(** [v[:12]] and the elements a [for] loop then draws from it (for a
    [str], its characters, here the bytes of ASCII text) *)
Fixpoint chars (s : string) : list PyVal :=
  match s with
  | EmptyString => []
  | String c rest => PStr (String c EmptyString) :: chars rest
  end.

Definition first12 (v : PyVal) : Res (list PyVal) :=
  match v with
  | PList l => ret (firstn 12 l)
  | PStr s => ret (firstn 12 (chars s))
  | PDict _ => raise (exc TypeError "unhashable type: 'slice'")
  | _ => raise (exc TypeError ("'" ++ type_name v ++ "' object is not subscriptable"))
  end.

Definition is_none (v : PyVal) : bool :=
  match v with PNone => true | _ => false end.

(** the body of [for i, h in enumerate(hourly)] *)
Definition hourly_card (host : Host) (combined : Combined) (i : Z) (h : PyVal)
  : M unit :=
  new_frame i ;;
  ts <- lift (get h "dt" PNone) ;;
  local_time <- lift (timestamp_to_local host ts (tz_offset combined)) ;;
  pack_label (strftime_HM local_time) ;;
  main <- lift (lower_method
                  (safe_get h [KStr "weather"; KInt 0; KStr "main"] (PStr "Clear"))) ;;
  let ic := if py_in "rain" main then "üåßÔ∏è"
            else if py_in "cloud" main then "‚òÅÔ∏è"
            else if py_in "snow" main then "‚ùÑÔ∏è"
            else if (py_in "fog" main || py_in "mist" main)%bool then "üå´Ô∏è"
            else "‚òÄÔ∏è" in
  pack_label ic ;;
  temp_h <- lift (get h "temp" PNone) ;;
  s <- lift (format_f 0 temp_h) ;;
  pack_label (s ++ "¬∞C").

Fixpoint hourly_loop (host : Host) (combined : Combined) (i : Z) (hs : list PyVal)
  : M unit :=
  match hs with
  | [] => mret tt
  | h :: rest => hourly_card host combined i h ;;
                 hourly_loop host combined (i + 1) rest
  end.

(** the [try] block of [_update_ui_with_data].  [combined] has every
    key, so the defaults of its [get] calls are never taken. *)
Definition update_body (host : Host) (combined : Combined) : M unit :=
  let loc_name := location_name combined in
  configure lbl_location loc_name ;;
  let tz_off := tz_offset combined in
  let cur := current combined in
  temp <- lift (get cur "temp" PNone) ;;
  feels <- lift (get cur "feels_like" PNone) ;;
  desc <- lift (title_method
                  (safe_get cur [KStr "weather"; KInt 0; KStr "description"] (PStr ""))) ;;
  cond_main <- lift (lower_method
                  (safe_get cur [KStr "weather"; KInt 0; KStr "main"] (PStr "Clear"))) ;;
  set_condition cond_main ;;
  (if is_none temp then mret tt
   else s <- lift (format_f 1 temp) ;; configure lbl_temp (s ++ "¬∞C")) ;;
  (if is_none feels then mret tt
   else s <- lift (format_f 1 feels) ;;
        configure lbl_feels ("Feels like " ++ s ++ "¬∞C")) ;;
  configure lbl_descr (if String.eqb desc "" then "‚Äî" else desc) ;;
  humidity <- lift (get cur "humidity" PNone) ;;
  wind_speed <- lift (get cur "wind_speed" (PInt 0)) ;;
  pressure <- lift (get cur "pressure" PNone) ;;
  visibility <- lift (get cur "visibility" PNone) ;;
  configure stat_humidity ("üíß Humidity: " ++ py_str humidity ++ "%") ;;
  configure stat_wind ("üí® Wind: " ++ format_fixed 0 (meters_per_sec_to_kmh wind_speed)
                       ++ " km/h") ;;
  configure stat_pressure ("üß≠ Pressure: " ++ py_str pressure ++ " hPa") ;;
  (if is_none visibility then configure stat_visibility "üëÅ Visibility: ‚Äî"
   else km <- lift (py_truediv visibility (PInt 1000)) ;;
        s <- lift (format_f 1 (of_num km)) ;;
        configure stat_visibility ("üëÅ Visibility: " ++ s ++ " km")) ;;
  sunrise <- lift (get cur "sunrise" PNone) ;;
  sunset <- lift (get cur "sunset" PNone) ;;
  (if (truthy sunrise && truthy sunset)%bool then
     local_sunrise <- lift (timestamp_to_local host sunrise tz_off) ;;
     local_sunset <- lift (timestamp_to_local host sunset tz_off) ;;
     configure sunrise_label ("Sunrise: " ++ strftime_HM local_sunrise) ;;
     configure sunset_label ("Sunset: " ++ strftime_HM local_sunset) ;;
     _draw_sun_arc host sunrise sunset tz_off
   else
     configure sunrise_label "Sunrise: --:--" ;;
     configure sunset_label "Sunset: --:--" ;;
     sun_delete_all) ;;
  hs <- lift (first12 (hourly combined)) ;;
  destroy_hourly ;;
  hourly_loop host combined 0 hs ;;
  set_status ("Showing: " ++ loc_name).

(** [_update_ui_with_data] *)
Definition _update_ui_with_data (host : Host) (combined : Combined) : M unit :=
  try_except (update_body host combined)
             (fun e => set_status ("UI update error: " ++ exc_str e)).

(** *** The UI poller *)

(** [_process_queue] *)
Definition _process_queue (host : Host) : M unit :=
  fun self =>
  match queue self with
  | [] =>                                        (* get_nowait raises Empty *)
      after 100 CbProcessQueue self
  | Error payload :: rest =>
      (modify (fun st => with_queue st rest) ;;
       set_status payload ;;
       modify (fun st => with_loose_labels st (loose_labels st ++ [payload]))) self
  | Ok payload :: rest =>
      (modify (fun st => with_queue st rest) ;;
       modify (fun st => with_current_data st (Some payload)) ;;
       set_status "Data loaded." ;;
       _update_ui_with_data host payload) self
  end.

(** *** Searching *)

(** [threading.Thread(target=self._background_fetch, args=(loc,)).start()] *)
Definition start_worker (loc : string) : M unit :=
  modify (fun st => with_threads st (threads st ++ [loc])).

(** [on_search] *)
Definition on_search : M unit :=
  fun self =>
  let loc := strip (search_var self) in
  if String.eqb loc "" then
    set_status "Enter a location (city or City,Country)." self
  else
    (set_status ("Searching: " ++ loc ++ " ...") ;;
     start_worker loc ;;
     after 100 CbProcessQueue) self.

(** *** Start-up *)

Definition initial_text (l : Label) : string :=
  match l with
  | lbl_location => "Location ‚Äî"
  | lbl_temp => "--¬∞C"
  | lbl_feels => "Feels like --¬∞C"
  | lbl_descr => "‚Äî"
  | stat_humidity => "üíß Humidity: ‚Äî"
  | stat_wind => "üí® Wind: ‚Äî"
  | stat_pressure => "üß≠ Pressure: ‚Äî"
  | stat_visibility => "üëÅ Visibility: ‚Äî"
  | sunrise_label => "Sunrise: --:--"
  | sunset_label => "Sunset: --:--"
  | status_label => "Ready"
  end.

(** [__init__], as far as it builds the state above.  [file] is the
    favourites file, [key] the value of [API_KEY], [w] and [h] what Tk
    reports as the size of [sun_canvas]. *)
Definition init (file : File) (key : string) (w h : Z) : Res t :=
  bind (load_favorites file) (fun favs =>
  bind (py_add (PList [PStr "(none)"]) favs) (fun _ =>
  bind (load_favorites file) (fun favs' =>
  bind (py_add (PList [PStr "(none)"]) favs') (fun values =>
  ret (mk "New York,US" initial_text [] w h []
          (WeatherCanvas.init 420 240) []
          (WeatherFetcher.mk key) [] None favs' values
          [(200, CbOnSearch)] []))))).

(** *** The event loop and the worker threads *)

Inductive Event : Type :=
| Fire (n : nat)           (* the n-th pending timer comes due *)
| WorkerDone (n : nat)     (* the n-th running worker runs its body *)
| Search                   (* the user presses Search, Refresh or Return *)
| Tick.                    (* one turn of the animation loop *)

Fixpoint remove_nth {A} (n : nat) (l : list A) : list A :=
  match n, l with
  | _, [] => []
  | O, _ :: rest => rest
  | S n', x :: rest => x :: remove_nth n' rest
  end.

(** An exception that leaves a callback or a thread body is reported
    by Tk, or ends the thread; the state stays as the code left it. *)
Definition step (host : Host) (net : Network) (ev : Event) (self : t) : t :=
  match ev with
  | Fire n =>
      match nth_error (after_calls self) n with
      | None => self
      | Some (_, cb) =>
          let self' := with_after_calls self (remove_nth n (after_calls self)) in
          snd (match cb with
               | CbOnSearch => on_search self'
               | CbProcessQueue => _process_queue host self'
               end)
      end
  | WorkerDone n =>
      match nth_error (threads self) n with
      | None => self
      | Some loc =>
          snd (_background_fetch net loc
                 (with_threads self (remove_nth n (threads self))))
      end
  | Search => snd (on_search self)
  | Tick =>
      with_weather_canvas self (WeatherCanvas._anim_loop 1 (weather_canvas self))
  end.

Definition run (host : Host) (net : Network) (evs : list Event) (self : t) : t :=
  fold_left (fun s ev => step host net ev s) evs self.

End Dashboard.

(** ** The specification's vocabulary *)

Module Spec.
Import PyStr WeatherCanvas.

(** "[s] contains [w]" *)
Definition Contains (w s : string) : Prop :=
  exists a b, s = a ++ w ++ b.

(** The six scene categories of the condition renderer. *)
Inductive Scene : Type :=
| RainOverCloud      (* rain scene over a cloud *)
| SnowOverCloud      (* snow scene over a cloud *)
| PlainCloud         (* plain cloud at partial coverage *)
| FogBands           (* horizontally drifting fog bands *)
| LightningCloud     (* cloud with a periodic lightning flash *)
| AnimatedSun.       (* animated sun with rotating rays *)

(** The selection rule: the first category, in this order, one of
    whose words the keyword contains; the sun when it contains none. *)
Definition rainy (c : string) : Prop := Contains "rain" c \/ Contains "drizzle" c.
Definition snowy (c : string) : Prop := Contains "snow" c.
Definition cloudy (c : string) : Prop := Contains "cloud" c.
Definition foggy (c : string) : Prop :=
  Contains "fog" c \/ Contains "mist" c \/ Contains "haze" c.
Definition stormy (c : string) : Prop := Contains "thunder" c \/ Contains "storm" c.

Definition selects (c : string) (k : Scene) : Prop :=
  match k with
  | RainOverCloud => rainy c
  | SnowOverCloud => ~ rainy c /\ snowy c
  | PlainCloud => ~ rainy c /\ ~ snowy c /\ cloudy c
  | FogBands => ~ rainy c /\ ~ snowy c /\ ~ cloudy c /\ foggy c
  | LightningCloud => ~ rainy c /\ ~ snowy c /\ ~ cloudy c /\ ~ foggy c /\ stormy c
  | AnimatedSun => ~ rainy c /\ ~ snowy c /\ ~ cloudy c /\ ~ foggy c /\ ~ stormy c
  end.

(** What the canvas holds after a frame of each scene, at tick [tk]. *)
Definition scene_items (k : Scene) (tk : Z) : list Shape :=
  match k with
  | RainOverCloud => [Cloud 0.5%float; Rain tk]
  | SnowOverCloud => [Cloud 0.5%float; Snow tk]
  | PlainCloud => [Cloud 0.7%float]
  | FogBands => [Fog tk]
  | LightningCloud =>
      Cloud 0.5%float :: (if (tk / 15) mod 10 =? 0 then [Lightning] else [])
  | AnimatedSun => [Sun tk]
  end.

(** "the lowercased condition (defaulting to "clear" for an empty value)" *)
Definition stored_condition (value : option string) : string :=
  match value with
  | None => "clear"
  | Some s => if String.eqb s "" then "clear" else lower s
  end.


End Spec.

(** ** What a method leaves as it is *)

Module Frame.
Import Dashboard.

(** [keeps R m]: whatever [m] does, returning or raising, the state it
    leaves is related by [R] to the state it started from. *)
Definition keeps {A} (R : Dashboard.t -> Dashboard.t -> Prop) (m : M A) : Prop :=
  forall s, R s (snd (m s)).

(** The part of the object that applying a snapshot does not touch:
    the search box, the queue, the timers, the workers, the stored
    snapshot, the favourites, the loose labels. *)
Definition same_plumbing (s s' : Dashboard.t) : Prop :=
  search_var s' = search_var s
  /\ sun_canvas_width s' = sun_canvas_width s
  /\ sun_canvas_height s' = sun_canvas_height s
  /\ loose_labels s' = loose_labels s
  /\ fetcher s' = fetcher s
  /\ queue s' = queue s
  /\ current_data s' = current_data s
  /\ favorites s' = favorites s
  /\ fav_menu_values s' = fav_menu_values s
  /\ after_calls s' = after_calls s
  /\ threads s' = threads s.



(** a message has been applied: an [Ok] snapshot is the stored current
    snapshot, an [Error] message is the text of the status line *)
Definition applied (m : Msg) (s : Dashboard.t) : Prop :=
  match m with
  | Ok data => current_data s = Some data
  | Error message => text s status_label = message
  end.

(** a poll is pending: some timer will call [_process_queue] *)
Definition poll_pending (s : Dashboard.t) : Prop :=
  exists ms, In (ms, CbProcessQueue) (after_calls s).

Definition is_poll (timer : Z * Callback) : bool :=
  match snd timer with
  | CbProcessQueue => true
  | CbOnSearch => false
  end.

(** the number of pending calls of the poller *)
Definition pending_polls (s : Dashboard.t) : nat :=
  List.length (List.filter is_poll (after_calls s)).

(** the number of results on their way: workers still running and
    messages on the queue *)
Definition awaited (s : Dashboard.t) : nat :=
  (List.length (threads s) + List.length (queue s))%nat.

End Frame.

(** ** Sample inputs *)

Module Sample.
Import Py Util WeatherFetcher Dashboard.

(** a host on UTC whose clock shows 1700010000 *)
Definition host0 : Host := mkHost (fun _ => 0) 1700010000.

(** the state [__init__] builds when there is no favourites file *)
Definition start : Dashboard.t :=
  Dashboard.mk "New York,US" initial_text [] 360 60 []
               (WeatherCanvas.init 420 240) []
               (WeatherFetcher.mk "key") [] None
               (PList []) (PList [PStr "(none)"])
               [(200, CbOnSearch)] [].

(** the same with no API key configured *)
Definition start_without_key : Dashboard.t :=
  Dashboard.mk "New York,US" initial_text [] 360 60 []
               (WeatherCanvas.init 420 240) []
               (WeatherFetcher.mk "") [] None
               (PList []) (PList [PStr "(none)"])
               [(200, CbOnSearch)] [].

Definition weather_body : PyVal :=
  PDict [("coord", PDict [("lon", PFloat 2.3488); ("lat", PFloat 48.8534)]);
         ("sys", PDict [("country", PStr "FR")]);
         ("timezone", PInt 3600);
         ("name", PStr "Paris")].

Definition rain : PyVal :=
  PList [PDict [("main", PStr "Rain"); ("description", PStr "light rain")]].

Definition hour (n : nat) : PyVal :=
  PDict [("dt", PInt (1700010000 + 3600 * Z.of_nat n));
         ("temp", PFloat 18.5);
         ("weather", rain)].

Definition current_body : PyVal :=
  PDict [("temp", PFloat 18.4); ("feels_like", PFloat 17.9);
         ("humidity", PInt 81); ("wind_speed", PFloat 2.5);
         ("pressure", PInt 1013); ("visibility", PInt 10000);
         ("sunrise", PInt 1700000000); ("sunset", PInt 1700035000);
         ("weather", rain)].

(** the second answer of the provider, with [n] hourly entries *)
Definition onecall_body (n : nat) : PyVal :=
  PDict [("current", current_body);
         ("hourly", PList (List.map hour (List.seq 0 n)))].

Definition ok_response (body : PyVal) : Response :=
  mkResponse 200 "OK" "https://api.openweathermap.org/data/2.5/" (inr body).

(** a provider that answers both requests, with [n] hourly entries *)
Definition provider (n : nat) : Network :=
  fun url _ =>
    if String.eqb url OWM_WEATHER_URL then inr (ok_response weather_body)
    else inr (ok_response (onecall_body n)).

(** a provider that does not know the city *)
Definition provider_404 : Network :=
  fun url _ =>
    inr (mkResponse 404 "Not Found" url
           (inr (PDict [("cod", PStr "404"); ("message", PStr "city not found")]))).

(** a network on which the request times out *)
Definition network_down : Network :=
  fun _ _ => inl (mkExc RequestException "Read timed out. (read timeout=10)" None).

(** the snapshot [fetch] builds from [provider n] *)
Definition snapshot (n : nat) : Combined :=
  mkCombined "None, None" (PFloat 48.8534) (PFloat 2.3488) (PInt 3600)
             current_body (PList (List.map hour (List.seq 0 n)))
             (PList []) weather_body.

(** a snapshot whose single hourly entry has no temperature *)
Definition snapshot_hour_without_temp : Combined :=
  mkCombined "None, None" (PFloat 48.8534) (PFloat 2.3488) (PInt 3600)
             current_body
             (PList [PDict [("dt", PInt 1700010000); ("weather", rain)];
                     hour 1])
             (PList []) weather_body.

(** a snapshot without any of the current numeric fields, shown after
    another one *)
Definition snapshot_without_numbers : Combined :=
  mkCombined "None, None" (PFloat 48.8534) (PFloat 2.3488) (PInt 3600)
             (PDict [("weather", rain)]) (PList []) (PList []) weather_body.

End Sample.

(** ** Favourites and the remaining handlers of [WeatherDashboard] *)

Module Handlers.
Import PyStr Py Util Dashboard.

Definition with_search_var (s : Dashboard.t) (v : string) : Dashboard.t :=
  Dashboard.mk v (text s) (sun_canvas s) (sun_canvas_width s) (sun_canvas_height s)
     (hourly_container s) (weather_canvas s) (loose_labels s) (fetcher s)
     (queue s) (current_data s) (favorites s) (fav_menu_values s)
     (after_calls s) (threads s).

Definition with_favorites (s : Dashboard.t) (f : PyVal) : Dashboard.t :=
  Dashboard.mk (search_var s) (text s) (sun_canvas s) (sun_canvas_width s)
     (sun_canvas_height s)
     (hourly_container s) (weather_canvas s) (loose_labels s) (fetcher s)
     (queue s) (current_data s) f (fav_menu_values s)
     (after_calls s) (threads s).

Definition with_fav_menu_values (s : Dashboard.t) (v : PyVal) : Dashboard.t :=
  Dashboard.mk (search_var s) (text s) (sun_canvas s) (sun_canvas_width s)
     (sun_canvas_height s)
     (hourly_container s) (weather_canvas s) (loose_labels s) (fetcher s)
     (queue s) (current_data s) (favorites s) v
     (after_calls s) (threads s).

(** What happens when [save_favorites] writes the file: the dump goes
    through, or [open] raises and the file stays, or the dump raises
    after [open] has emptied the file, leaving some of the text. *)
Inductive WriteOutcome : Type :=
| Written
| OpenFails (e : PyExc)
| DumpFails (e : PyExc) (remains : string + PyVal).

(** [save_favorites(favs)]: the result of the call and the file after it *)
Definition save_favorites (o : WriteOutcome) (favs : PyVal) (f : File)
  : Res unit * File :=
  let attempt : Res unit * File :=
    match o with
    | Written => (ret tt, Text (inr favs))
    | OpenFails e => (raise e, f)
    | DumpFails e remains => (raise e, Text remains)
    end in
  match attempt with
  | (inr _, f') => (ret tt, f')
  | (inl _, f') => (ret tt, f')          (* except Exception: pass *)
  end.

(** [loc in favs] *)
Definition contains (favs : PyVal) (loc : string) : Res bool :=
  match favs with
  | PList l =>
      ret (existsb (fun v => match v with
                             | PStr s => String.eqb s loc
                             | _ => false
                             end) l)
  | PStr s => ret (py_in loc s)
  | PDict d => ret (match lookup loc d with Some _ => true | None => false end)
  | _ => raise (exc TypeError ("argument of type '" ++ type_name favs
                               ++ "' is not iterable"))
  end.

(** [favs.insert(0, loc)]: only a [list] has the method *)
Definition insert0 (favs : PyVal) (loc : string) : Res (list PyVal) :=
  match favs with
  | PList l => ret (PStr loc :: l)
  | _ => no_attribute favs "insert"
  end.

(** [save_current_favorite]: the object and the favourites file, with
    the result of the call *)
Definition save_current_favorite (o : WriteOutcome) (disk : File)
  : Dashboard.t -> Res unit * (Dashboard.t * File) :=
  fun self =>
  let loc := strip (search_var self) in
  if String.eqb loc "" then
    let (r, s) := set_status "No location to save." self in (r, (s, disk))
  else
    match contains (favorites self) loc with
    | inl e => (inl e, (self, disk))
    | inr true =>
        let (r, s) := set_status ("Already in favorites: " ++ loc) self in
        (r, (s, disk))
    | inr false =>
        match insert0 (favorites self) loc with
        | inl e => (inl e, (self, disk))
        | inr inserted =>
            let favs := PList (firstn 12 inserted) in
            let self1 := with_favorites self favs in
            let disk' := snd (save_favorites o favs disk) in
            match py_add (PList [PStr "(none)"]) favs with
            | inl e => (inl e, (self1, disk'))
            | inr values =>
                let (r, s) := set_status ("Saved favorite: " ++ loc)
                                (with_fav_menu_values self1 values) in
                (r, (s, disk'))
            end
        end
    end.

(** [on_favorite_select(val)] *)
Definition on_favorite_select (val : string) : M unit :=
  fun self =>
  if (String.eqb val "" || String.eqb val "(none)")%bool then mret tt self
  else on_search (with_search_var self val).

(** [on_refresh] *)
Definition on_refresh : M unit :=
  fun self =>
  let loc := strip (search_var self) in
  if String.eqb loc "" then set_status "No location to refresh." self
  else on_search self.

(** *** A session: the event loop together with the user *)

Inductive Action : Type :=
| Loop (ev : Event)                    (* a timer, a worker, a search, a tick *)
| Refresh                              (* the Refresh button *)
| SelectFavorite (val : string)        (* a choice in the favourites menu *)
| SaveFavorite (o : WriteOutcome).     (* the Save button, and what the write does *)

(** An exception that leaves a handler is reported by Tk; the object
    and the file stay as the handler left them. *)
Definition act (host : Host) (net : WeatherFetcher.Network) (a : Action)
           (st : Dashboard.t * File) : Dashboard.t * File :=
  match a with
  | Loop ev => (step host net ev (fst st), snd st)
  | Refresh => (snd (on_refresh (fst st)), snd st)
  | SelectFavorite val => (snd (on_favorite_select val (fst st)), snd st)
  | SaveFavorite o => snd (save_current_favorite o (snd st) (fst st))
  end.

Definition session (host : Host) (net : WeatherFetcher.Network)
           (acts : list Action) (st : Dashboard.t * File) : Dashboard.t * File :=
  fold_left (fun s a => act host net a s) acts st.

End Handlers.

(** ** What a method has done when it returns *)

Module Outcome.
Import Py Dashboard.

Definition is_dict (v : PyVal) : bool :=
  match v with PDict _ => true | _ => false end.

(** the parameters of the first request of [fetch] *)
Definition weather_params (key loc : string) : list (string * PyVal) :=
  [("q", PStr loc); ("appid", PStr key)].

(** [on_return Q m]: whenever [m] returns, the state it leaves has [Q]. *)
Definition on_return {A} (Q : Dashboard.t -> Prop) (m : M A) : Prop :=
  forall s x s', m s = (inr x, s') -> Q s'.

(** the items of the daylight canvas have only been added to *)
Definition sun_items_added (s s' : Dashboard.t) : Prop :=
  exists more, sun_canvas s' = (sun_canvas s ++ more)%list.

(** a label and the renderer are as they were *)
Definition same_label (l : Label) (s s' : Dashboard.t) : Prop :=
  text s' l = text s l.

Definition same_renderer (s s' : Dashboard.t) : Prop :=
  weather_canvas s' = weather_canvas s.

(** a favourites list in order: a list of at most twelve entries, none
    of them twice *)
Definition tidy (favs : PyVal) : Prop :=
  exists l, favs = PList l /\ (List.length l <= 12)%nat /\ NoDup l.

(** an action whose write to the favourites file, if it makes one,
    goes through *)
Definition written (a : Handlers.Action) : bool :=
  match a with
  | Handlers.SaveFavorite (Handlers.OpenFails _) => false
  | Handlers.SaveFavorite (Handlers.DumpFails _ _) => false
  | _ => true
  end.

(** the start state with two favourites and a new place in the search
    box, and with the place of the search box among the favourites *)
Definition about_to_save : Dashboard.t :=
  Handlers.with_search_var
    (Handlers.with_favorites Sample.start (PList [PStr "Paris,FR"; PStr "Oslo,NO"]))
    "  Lima,PE ".

Definition already_saved : Dashboard.t :=
  Handlers.with_favorites Sample.start (PList [PStr "Paris,FR"; PStr "New York,US"]).

(** a finished hourly card: time, icon and temperature *)
Definition full_card (f : Frame) : Prop := List.length (labels f) = 3%nat.

End Outcome.

(* ================================================================== *)
(** * Part II. Properties                                              *)
(* ================================================================== *)

(** ** Strings *)

Section Strings.
Import PyStr Spec.

Lemma prefix_iff_app (w s : string) :
  String.prefix w s = true <-> exists b, s = w ++ b.
Proof.
  revert s; induction w as [|c w IH]; intros s; simpl.
  - destruct s; split; intros; eauto.
  - destruct s as [|c' s]; simpl.
    + split; [discriminate | intros [b H]; discriminate].
    + destruct (ascii_dec c c') as [->|ne].
      * rewrite IH. split; intros [b H]; exists b; congruence.
      * split; [discriminate | intros [b H]; congruence].
Qed.

Lemma py_in_unfold (w s : string) :
  py_in w s = (String.prefix w s
               || match s with
                  | EmptyString => false
                  | String _ rest => py_in w rest
                  end)%bool.
Proof. destruct s; simpl; destruct w; reflexivity || (destruct (ascii_dec _ _); reflexivity). Qed.

Lemma py_in_Contains (w s : string) :
  py_in w s = true <-> Contains w s.
Proof.
  induction s as [|c s IH]; rewrite py_in_unfold, orb_true_iff, prefix_iff_app.
  - split.
    + intros [[b H]|H]; [exists "", b; exact H | discriminate].
    + intros (a & b & H). left. destruct a; [exists b; exact H | discriminate].
  - rewrite IH. split.
    + intros [[b H]|(a & b & ->)].
      * exists "", b; exact H.
      * exists (String c a), b. reflexivity.
    + intros (a & b & H). destruct a as [|c' a]; simpl in H.
      * left. exists b. exact H.
      * right. injection H as _ ->. exists a, b. reflexivity.
Qed.

Lemma py_in_reflect (w s : string) : reflect (Contains w s) (py_in w s).
Proof. apply iff_reflect. symmetry. apply py_in_Contains. Qed.

End Strings.

(** ** The condition renderer *)

Section Renderer.
Import PyStr Spec WeatherCanvas.

Lemma rainy_reflect c :
  reflect (rainy c) (py_in "rain" c || py_in "drizzle" c).
Proof.
  unfold rainy.
  destruct (py_in_reflect "rain" c), (py_in_reflect "drizzle" c);
    constructor; tauto.
Qed.

Lemma foggy_reflect c :
  reflect (foggy c) (py_in "fog" c || py_in "mist" c || py_in "haze" c).
Proof.
  unfold foggy.
  destruct (py_in_reflect "fog" c), (py_in_reflect "mist" c),
    (py_in_reflect "haze" c); constructor; tauto.
Qed.

Lemma stormy_reflect c :
  reflect (stormy c) (py_in "thunder" c || py_in "storm" c).
Proof.
  unfold stormy.
  destruct (py_in_reflect "thunder" c), (py_in_reflect "storm" c);
    constructor; tauto.
Qed.

(** The categories exclude one another: a keyword is in at most one. *)
Lemma selects_functional c k k' : selects c k -> selects c k' -> k = k'.
Proof. destruct k, k'; simpl; tauto. Qed.

(** C4.  One renderer tick on a live canvas clears it and draws the
    scene of exactly one of the six categories, the one that the
    substring rule selects for the condition keyword: rain or drizzle,
    else snow, else cloud, else fog, mist or haze, else thunder or
    storm, else the sun. *)
Theorem step_selects_one_scene (self : WeatherCanvas.t) (items : list Shape) :
  canvas self = Live items ->
  exists k : Scene,
    selects (condition self) k
    /\ (forall k', selects (condition self) k' -> k' = k)
    /\ _step self = inr (Live (scene_items k (_anim_t self))).
Proof.
  intros Hlive.
  assert (Hpick : exists k, selects (condition self) k
                  /\ _step self = inr (Live (scene_items k (_anim_t self)))).
  { unfold _step. rewrite Hlive. cbn [delete_all andThen].
    destruct (rainy_reflect (condition self)) as [R|R];
      [exists RainOverCloud; split; [exact R | reflexivity]|].
    destruct (py_in_reflect "snow" (condition self)) as [S|S];
      [exists SnowOverCloud; split; [split; assumption | reflexivity]|].
    destruct (py_in_reflect "cloud" (condition self)) as [C|C];
      [exists PlainCloud; split; [repeat split; assumption | reflexivity]|].
    destruct (foggy_reflect (condition self)) as [F|F];
      [exists FogBands; split; [repeat split; assumption | reflexivity]|].
    destruct (stormy_reflect (condition self)) as [T|T].
    - exists LightningCloud. split; [repeat split; assumption|].
      cbn. destruct (_ =? 0); reflexivity.
    - exists AnimatedSun. split; [repeat split; assumption | reflexivity]. }
  destruct Hpick as (k & Hsel & Hstep).
  exists k. repeat split; trivial.
  intros k' Hk'. eapply selects_functional; eassumption.
Qed.

Lemma step_selects_one_scene_witness :
  exists k : Scene,
    selects "light rain" k
    /\ (forall k', selects "light rain" k' -> k' = k)
    /\ _step (mk 420 240 (Live [Sun 6]) false 7 "light rain")
       = inr (Live (scene_items k 7)).
Proof.
  apply (step_selects_one_scene
           (mk 420 240 (Live [Sun 6]) false 7 "light rain") [Sun 6]).
  reflexivity.
Defined.

Example step_thunderstorm_flash :
  _step (mk 420 240 (Live []) false 14 "thunderstorm")
  = inr (Live [Cloud 0.5%float; Lightning]).
Proof. reflexivity. Qed.

Example step_thunderstorm_dark :
  _step (mk 420 240 (Live []) false 15 "thunderstorm")
  = inr (Live [Cloud 0.5%float]).
Proof. reflexivity. Qed.

Example step_clear :
  _step (mk 420 240 (Live [Rain 2]) false 3 "clear") = inr (Live [Sun 3]).
Proof. reflexivity. Qed.

Lemma anim_turn_tick (self : WeatherCanvas.t) :
  _anim_t (anim_turn self) = _anim_t self + 1.
Proof. unfold anim_turn. destruct (_step self); reflexivity. Qed.

Lemma anim_turn_condition (self : WeatherCanvas.t) :
  condition (anim_turn self) = condition self.
Proof. unfold anim_turn. destruct (_step self); reflexivity. Qed.

Lemma anim_turn_stop (self : WeatherCanvas.t) :
  _stop (anim_turn self) = _stop self.
Proof. unfold anim_turn. destruct (_step self); reflexivity. Qed.

(** While [_stop] is unset, [n] passes of the loop are [n] turns. *)
Lemma anim_loop_running (n : nat) (self : WeatherCanvas.t) :
  _stop self = false -> _anim_loop n self = Nat.iter n anim_turn self.
Proof.
  revert self; induction n as [|n IH]; intros self Hrun; [reflexivity|].
  cbn [_anim_loop]. rewrite Hrun, IH by (rewrite anim_turn_stop; exact Hrun).
  symmetry. apply Nat.iter_succ_r.
Qed.

(** C8.  Whatever the renderer's state and the new value,
    [set_condition] stores the lower-cased condition ("clear" for an
    empty value), sets the tick counter to 0 and leaves the canvas
    without items; the [n]-th turn of the loop after it ends at tick
    [n], with the condition kept. *)
Theorem set_condition_restarts_ticks (self : WeatherCanvas.t) (value : option string) :
  let self' := set_condition self value in
  condition self' = stored_condition value
  /\ _anim_t self' = 0
  /\ canvas_items (canvas self') = []
  /\ forall n : nat,
       _anim_t (Nat.iter n anim_turn self') = Z.of_nat n
       /\ condition (Nat.iter n anim_turn self') = stored_condition value.
Proof.
  intros self'.
  assert (Hc : condition self' = stored_condition value).
  { destruct value as [[|a s]|]; reflexivity. }
  assert (Ht : _anim_t self' = 0) by reflexivity.
  repeat split; trivial.
  - subst self'. unfold set_condition. cbn [canvas].
    destruct (canvas self); reflexivity.
  - induction n as [|n IH]; [exact Ht|].
    rewrite Nat.iter_succ, anim_turn_tick, IH. lia.
  - induction n as [|n IH]; [exact Hc|].
    rewrite Nat.iter_succ, anim_turn_condition. exact IH.
Qed.

Example set_condition_rain :
  set_condition (mk 420 240 (Live [Sun 41]) false 41 "clear") (Some "Rain")
  = mk 420 240 (Live []) false 0 "rain".
Proof. reflexivity. Qed.

End Renderer.

(** ** Loading the favourites *)

Section Favorites.
Import Py Util Dashboard Sample.


Example init_without_file : init Missing "key" 360 60 = inr start.
Proof. reflexivity. Qed.

(** A file that holds JSON is returned as parsed, list or not. *)
Example load_favorites_object :
  load_favorites (Text (inr (PDict [("home", PStr "Paris")])))
  = inr (PDict [("home", PStr "Paris")]).
Proof. reflexivity. Qed.

End Favorites.

(** ** The fetch worker *)

Section Worker.
Import Py Util WeatherFetcher Dashboard Sample.

(** the thread body, by what it does to the object *)
Lemma background_fetch_queue (net : Network) (loc : string) (self : Dashboard.t) :
  exists m : Msg,
    _background_fetch net loc self
    = (inr tt, with_queue self (queue self ++ [m])).
Proof.
  unfold _background_fetch, try_except, mbind, lift, queue_put, modify.
  destruct (fetch net (fetcher self) loc) as [e | data].
  - destruct (exc_class e); eexists; reflexivity.
  - eexists. reflexivity.
Qed.

(** C1.  Whatever the location, the provider and the network do, the
    thread body returns without an exception and leaves the object as
    it was but for one more message at the end of the queue: [Ok] with
    the snapshot when [fetch] returned, [Error] with a message when it
    raised. *)
Theorem background_fetch_pushes_once
  (net : Network) (loc : string) (self : Dashboard.t) :
  exists m : Msg,
    _background_fetch net loc self
    = (inr tt, with_queue self (queue self ++ [m]))
    /\ match fetch net (fetcher self) loc with
       | inr data => m = Ok data
       | inl _ => exists message, m = Error message
       end.
Proof.
  unfold _background_fetch, try_except, mbind, lift, queue_put, modify.
  destruct (fetch net (fetcher self) loc) as [e | data].
  - destruct (exc_class e); eexists; (split; [reflexivity | eexists; reflexivity]).
  - eexists. split; reflexivity.
Qed.

Example fetch_paris : fetch (provider 3) (WeatherFetcher.mk "key") "Paris,FR"
                      = inr (snapshot 3).
Proof. reflexivity. Qed.

Example worker_ok :
  queue (snd (_background_fetch (provider 3) "Paris,FR" start)) = [Ok (snapshot 3)].
Proof. reflexivity. Qed.

Example worker_without_key :
  queue (snd (_background_fetch (provider 3) "Paris,FR" start_without_key))
  = [Error "Fetch error: OpenWeatherMap API key not set."].
Proof. reflexivity. Qed.

Example worker_city_not_found :
  queue (snd (_background_fetch provider_404 "Atlantis" start))
  = [Error "API error: city not found"].
Proof. reflexivity. Qed.

Example worker_timeout :
  queue (snd (_background_fetch network_down "Paris,FR" start))
  = [Error "Fetch error: Read timed out. (read timeout=10)"].
Proof. reflexivity. Qed.

End Worker.

(** ** Frame rules for methods *)

Section Keeping.
Import Py Util WeatherFetcher Dashboard Frame.

Variable R : Dashboard.t -> Dashboard.t -> Prop.
Hypothesis R_refl : forall s, R s s.
Hypothesis R_trans : forall a b c, R a b -> R b c -> R a c.

Lemma keeps_mret {A} (x : A) : keeps R (mret x).
Proof. intros s. apply R_refl. Qed.

Lemma keeps_lift {A} (r : Res A) : keeps R (lift r).
Proof. intros s. apply R_refl. Qed.

Lemma keeps_modify (f : Dashboard.t -> Dashboard.t) :
  (forall s, R s (f s)) -> keeps R (modify f).
Proof. intros H s. apply H. Qed.

Lemma keeps_mbind {A B} (m : M A) (k : A -> M B) :
  keeps R m -> (forall x, keeps R (k x)) -> keeps R (mbind m k).
Proof.
  intros Hm Hk s. unfold mbind.
  specialize (Hm s). destruct (m s) as [[e | x] s']; cbn [snd] in *.
  - exact Hm.
  - eapply R_trans; [exact Hm | apply Hk].
Qed.


Lemma keeps_try_except {A} (body : M A) (handler : PyExc -> M A) :
  keeps R body -> (forall e, keeps R (handler e)) -> keeps R (try_except body handler).
Proof.
  intros Hb Hh s. unfold try_except.
  specialize (Hb s). destruct (body s) as [[e | x] s']; cbn [snd] in *.
  - eapply R_trans; [exact Hb | apply Hh].
  - exact Hb.
Qed.

(** a method that first reads its own object *)
Lemma keeps_self {A} (body : Dashboard.t -> M A) :
  (forall s0, keeps R (body s0)) -> keeps R (fun s => body s s).
Proof. intros H s. apply (H s s). Qed.

End Keeping.

(** Takes a method apart along its binds, handlers and branches;
    [special] is tried first at every step, [prim] closes the goals that
    the state updates leave. *)
Ltac keeps_go_with special refl trans prim :=
  unfold Dashboard.set_status; unfold Dashboard.configure, Dashboard.after,
    Dashboard.sun_create, Dashboard.sun_delete_all, Dashboard.set_condition,
    Dashboard.destroy_hourly, Dashboard.new_frame, Dashboard.pack_label,
    Dashboard.queue_put, Dashboard.start_worker;
  repeat first
    [ special
    | match goal with
      | |- Frame.keeps _ (Dashboard.mbind _ _) =>
          apply (keeps_mbind _ trans); [| intros ?]
      | |- Frame.keeps _ (Dashboard.try_except _ _) =>
          apply (keeps_try_except _ trans); [| intros ?]
      | |- Frame.keeps _ (Dashboard.lift _) => apply (keeps_lift _ refl)
      | |- Frame.keeps _ (Dashboard.mret _) => apply (keeps_mret _ refl)
      | |- Frame.keeps _ (Dashboard.modify _) => apply keeps_modify; intros ?; prim
      | |- Frame.keeps _ (if ?b then _ else _) => destruct b
      | |- Frame.keeps _ (fun self => _) =>
          let s := fresh "s" in
          intros s; cbv beta;
          match goal with
          | |- ?R s (snd (?m s)) =>
              let H := fresh in
              assert (H : Frame.keeps R m); [| exact (H s)]
          end; cbv zeta
      end ].

Ltac keeps_go refl trans prim := keeps_go_with ltac:(fail) refl trans prim.

Section Plumbing.
Import Py Util WeatherFetcher Dashboard Frame.

Lemma same_plumbing_refl s : same_plumbing s s.
Proof. repeat split. Qed.

Lemma same_plumbing_trans a b c :
  same_plumbing a b -> same_plumbing b c -> same_plumbing a c.
Proof. unfold same_plumbing. intuition congruence. Qed.

Ltac plumbing := keeps_go same_plumbing_refl same_plumbing_trans
                          ltac:(repeat split).

Lemma draw_sun_arc_plumbing host a b c :
  keeps same_plumbing (_draw_sun_arc host a b c).
Proof. unfold _draw_sun_arc. plumbing. Qed.

Lemma hourly_card_plumbing host c i h :
  keeps same_plumbing (hourly_card host c i h).
Proof. unfold hourly_card. plumbing. Qed.

Lemma hourly_loop_plumbing host c hs :
  forall i, keeps same_plumbing (hourly_loop host c i hs).
Proof.
  induction hs as [|h hs IH]; intros i; cbn [hourly_loop].
  - apply (keeps_mret _ same_plumbing_refl).
  - apply (keeps_mbind _ same_plumbing_trans); [apply hourly_card_plumbing|].
    intros _. apply IH.
Qed.

Lemma update_plumbing host c :
  keeps same_plumbing (_update_ui_with_data host c).
Proof.
  unfold _update_ui_with_data, update_body.
  plumbing.
  all: first [ apply draw_sun_arc_plumbing | apply hourly_loop_plumbing ].
Qed.

End Plumbing.

(** ** The UI poller *)

Section Poller.
Import PyStr Py Util WeatherFetcher Dashboard Frame Sample.

Lemma process_queue_empty host self :
  queue self = [] ->
  _process_queue host self
  = (inr tt, with_after_calls self ((after_calls self ++ [(100, CbProcessQueue)])%list)).
Proof. intros H. unfold _process_queue. rewrite H. reflexivity. Qed.

Lemma process_queue_error host self payload rest :
  queue self = Error payload :: rest ->
  _process_queue host self
  = (inr tt,
     with_loose_labels
       (with_text (with_queue self rest)
          (fun l => if Label_eqb l status_label then payload else text self l))
       (loose_labels self ++ [payload])%list).
Proof. intros H. unfold _process_queue. rewrite H. reflexivity. Qed.

Lemma process_queue_ok host self data rest :
  queue self = Ok data :: rest ->
  _process_queue host self
  = _update_ui_with_data host data
      (with_text (with_current_data (with_queue self rest) (Some data))
         (fun l => if Label_eqb l status_label then "Data loaded." else text self l)).
Proof. intros H. unfold _process_queue. rewrite H. reflexivity. Qed.

(** C5.  On an [Error] result the poller returns normally, the status
    line shows the carried string as it is, and the other labels, the
    hourly cards, the daylight arc, the renderer and the stored snapshot
    are what they were. *)
Theorem error_result_sets_status_only host self payload rest :
  queue self = Error payload :: rest ->
  fst (_process_queue host self) = inr tt
  /\ text (snd (_process_queue host self)) status_label = payload
  /\ (forall l, l <> status_label ->
        text (snd (_process_queue host self)) l = text self l)
  /\ hourly_container (snd (_process_queue host self)) = hourly_container self
  /\ sun_canvas (snd (_process_queue host self)) = sun_canvas self
  /\ weather_canvas (snd (_process_queue host self)) = weather_canvas self
  /\ current_data (snd (_process_queue host self)) = current_data self
  /\ queue (snd (_process_queue host self)) = rest.
Proof.
  intros H. rewrite (process_queue_error host self payload rest H).
  cbn. repeat split.
  intros l Hl. destruct l; try reflexivity. contradiction.
Qed.

Lemma error_result_sets_status_only_witness :
  let self := with_queue start [Error "API error: city not found"] in
  fst (_process_queue host0 self) = inr tt
  /\ text (snd (_process_queue host0 self)) status_label = "API error: city not found"
  /\ (forall l, l <> status_label ->
        text (snd (_process_queue host0 self)) l = text self l)
  /\ hourly_container (snd (_process_queue host0 self)) = hourly_container self
  /\ sun_canvas (snd (_process_queue host0 self)) = sun_canvas self
  /\ weather_canvas (snd (_process_queue host0 self)) = weather_canvas self
  /\ current_data (snd (_process_queue host0 self)) = current_data self
  /\ queue (snd (_process_queue host0 self)) = [].
Proof.
  exact (error_result_sets_status_only host0
           (with_queue start [Error "API error: city not found"])
           "API error: city not found" [] eq_refl).
Defined.

(** C2, as amended.  The poller registers a new call of itself exactly
    when it found the queue empty; after it has taken a message, [Ok]
    or [Error], the timers are what they were. *)
Theorem poller_reschedules_when_empty host self :
  after_calls (snd (_process_queue host self))
  = match queue self with
    | [] => (after_calls self ++ [(100, CbProcessQueue)])%list
    | _ :: _ => after_calls self
    end.
Proof.
  destruct (queue self) as [|[data | payload] rest] eqn:Hq.
  - rewrite (process_queue_empty host self Hq). reflexivity.
  - rewrite (process_queue_ok host self data rest Hq).
    match goal with
    | |- after_calls (snd (_ _ _ ?s)) = _ =>
        destruct (update_plumbing host data s) as (_&_&_&_&_&_&_&_&_&Ha&_)
    end.
    rewrite Ha. reflexivity.
  - rewrite (process_queue_error host self payload rest Hq). reflexivity.
Qed.

(** C2, as stated, fails: after an [Error] result has been taken, no
    call of the poller is pending. *)
Lemma poller_stops_after_a_message :
  ~ (forall host self, poll_pending (snd (_process_queue host self))).
Proof.
  intros H.
  destruct (H host0 (with_after_calls
                       (with_queue start [Error "API error: city not found"]) []))
    as (ms & Hin).
  exact Hin.
Qed.

(** The same on a run: a search, the worker's failure, one poll; then
    no timer is left. *)
Example no_timer_after_failed_search :
  after_calls (run host0 provider_404 [Fire 0; WorkerDone 0; Fire 0] start) = [].
Proof. reflexivity. Qed.

(** A search with a location starts a worker and a poll. *)
Lemma on_search_starts_poll self :
  strip (search_var self) <> "" ->
  after_calls (snd (on_search self)) = (after_calls self ++ [(100, CbProcessQueue)])%list
  /\ threads (snd (on_search self)) = (threads self ++ [strip (search_var self)])%list.
Proof.
  intros H. unfold on_search.
  destruct (String.eqb_spec (strip (search_var self)) ""); [contradiction|].
  split; reflexivity.
Qed.

End Poller.

Section OneMessage.
Import PyStr Py Util WeatherFetcher Dashboard Frame Sample.

Lemma process_queue_cons host self m rest :
  queue self = m :: rest ->
  queue (snd (_process_queue host self)) = rest
  /\ applied m (snd (_process_queue host self))
  /\ after_calls (snd (_process_queue host self)) = after_calls self.
Proof.
  intros Hq. destruct m as [data | payload].
  - rewrite (process_queue_ok host self data rest Hq).
    match goal with
    | |- context [snd (_ _ _ ?s)] =>
        destruct (update_plumbing host data s) as (_&_&_&_&_&Hqueue&Hcur&_&_&Ha&_)
    end.
    cbn [applied]. rewrite Hqueue, Hcur, Ha. repeat split.
  - rewrite (process_queue_error host self payload rest Hq). repeat split.
Qed.

Lemma fire_poll host net self ms timers :
  after_calls self = (ms, CbProcessQueue) :: timers ->
  step host net (Fire 0) self
  = snd (_process_queue host (with_after_calls self timers)).
Proof. intros H. unfold step. rewrite H. reflexivity. Qed.

(** C3.  One call of the poller takes at most one message off the
    queue.  With two results on the queue, the first call applies the
    first and leaves the second at the head of the queue, and the next
    call applies the second; when the two calls are the two pending
    timers, the first timer leaves the second pending. *)
Theorem poller_takes_one_message host self :
  queue (snd (_process_queue host self)) = tl (queue self)
  /\ (forall m1 m2 rest host',
        queue self = m1 :: m2 :: rest ->
        let s1 := snd (_process_queue host self) in
        let s2 := snd (_process_queue host' s1) in
        queue s1 = m2 :: rest /\ applied m1 s1
        /\ queue s2 = rest /\ applied m2 s2)
  /\ (forall m1 m2 rest ms1 ms2 timers net,
        queue self = m1 :: m2 :: rest ->
        after_calls self = (ms1, CbProcessQueue) :: (ms2, CbProcessQueue) :: timers ->
        let s1 := step host net (Fire 0) self in
        let s2 := step host net (Fire 0) s1 in
        queue s1 = m2 :: rest /\ applied m1 s1
        /\ after_calls s1 = (ms2, CbProcessQueue) :: timers
        /\ queue s2 = rest /\ applied m2 s2).
Proof.
  split; [|split].
  - destruct (queue self) as [|m rest] eqn:Hq.
    + rewrite (process_queue_empty host self Hq). exact Hq.
    + apply (process_queue_cons host self m rest Hq).
  - intros m1 m2 rest host' Hq s1 s2.
    destruct (process_queue_cons host self m1 (m2 :: rest) Hq) as (Hq1 & Ha1 & _).
    destruct (process_queue_cons host' s1 m2 rest Hq1) as (Hq2 & Ha2 & _).
    repeat split; assumption.
  - intros m1 m2 rest ms1 ms2 timers net Hq Ht s1 s2.
    assert (E1 : s1 = snd (_process_queue host
                             (with_after_calls self ((ms2, CbProcessQueue) :: timers))))
      by (apply (fire_poll host net self ms1); exact Ht).
    destruct (process_queue_cons host
                (with_after_calls self ((ms2, CbProcessQueue) :: timers))
                m1 (m2 :: rest) Hq) as (Hq1 & Ha1 & Ht1).
    rewrite <- E1 in Hq1, Ha1, Ht1. cbn [after_calls with_after_calls] in Ht1.
    assert (E2 : s2 = snd (_process_queue host (with_after_calls s1 timers)))
      by (apply (fire_poll host net s1 ms2); exact Ht1).
    destruct (process_queue_cons host (with_after_calls s1 timers) m2 rest Hq1)
      as (Hq2 & Ha2 & _).
    rewrite <- E2 in Hq2, Ha2.
    repeat split; assumption.
Qed.

(** two searches, both workers done, no poll yet *)
Example two_results_waiting :
  let s := run host0 provider_404 [Fire 0; Search; WorkerDone 0; WorkerDone 0] start in
  queue s = [Error "API error: city not found"; Error "API error: city not found"]
  /\ after_calls s = [(100, CbProcessQueue); (100, CbProcessQueue)].
Proof. split; reflexivity. Qed.

Lemma poller_takes_one_message_witness :
  let self := with_after_calls
                (with_queue start [Error "first"; Ok (snapshot 2)])
                [(100, CbProcessQueue); (100, CbProcessQueue)] in
  let s1 := step host0 (provider 2) (Fire 0) self in
  let s2 := step host0 (provider 2) (Fire 0) s1 in
  queue s1 = [Ok (snapshot 2)] /\ applied (Error "first") s1
  /\ after_calls s1 = [(100, CbProcessQueue)]
  /\ queue s2 = [] /\ applied (Ok (snapshot 2)) s2.
Proof.
  exact (proj2 (proj2 (poller_takes_one_message host0
           (with_after_calls
              (with_queue start [Error "first"; Ok (snapshot 2)])
              [(100, CbProcessQueue); (100, CbProcessQueue)])))
           (Error "first") (Ok (snapshot 2)) [] 100 100 [] (provider 2)
           eq_refl eq_refl).
Defined.

End OneMessage.

(** ** Every result has its poll *)

Section Balance.
Import PyStr Py Util WeatherFetcher Dashboard Frame Sample.

Lemma remove_nth_length {A} (l : list A) :
  forall n x, nth_error l n = Some x ->
              S (List.length (remove_nth n l)) = List.length l.
Proof.
  induction l as [|a l IH]; intros [|n] x H; try discriminate; cbn in *.
  - reflexivity.
  - f_equal. apply (IH n x H).
Qed.

Lemma remove_nth_filter {A} (p : A -> bool) (l : list A) :
  forall n x, nth_error l n = Some x ->
    ((if p x then 1 else 0) + List.length (List.filter p (remove_nth n l))
     = List.length (List.filter p l))%nat.
Proof.
  induction l as [|a l IH]; intros [|n] x H; try discriminate; cbn in *.
  - injection H as ->. destruct (p x); reflexivity.
  - specialize (IH n x H). destruct (p a); cbn; lia.
Qed.

Lemma on_search_balance self :
  pending_polls self = awaited self ->
  pending_polls (snd (on_search self)) = awaited (snd (on_search self)).
Proof.
  unfold pending_polls, awaited, on_search.
  destruct (String.eqb _ _); cbn; [trivial|].
  rewrite filter_app, !length_app. cbn. lia.
Qed.

Lemma process_queue_balance host self :
  S (pending_polls self) = awaited self ->
  pending_polls (snd (_process_queue host self))
  = awaited (snd (_process_queue host self)).
Proof.
  unfold pending_polls, awaited. intros H.
  destruct (queue self) as [|m rest] eqn:Hq.
  - rewrite (process_queue_empty host self Hq). cbn.
    rewrite Hq, filter_app, length_app. cbn in *. lia.
  - destruct (process_queue_cons host self m rest Hq) as (Hq' & _ & Ha).
    assert (Ht : threads (snd (_process_queue host self)) = threads self).
    { destruct m as [data | payload].
      - rewrite (process_queue_ok host self data rest Hq).
        match goal with
        | |- context [snd (_ _ _ ?s)] =>
            destruct (update_plumbing host data s) as (_&_&_&_&_&_&_&_&_&_&Ht)
        end.
        rewrite Ht. reflexivity.
      - rewrite (process_queue_error host self payload rest Hq). reflexivity. }
    rewrite Hq', Ha, Ht. cbn in H. lia.
Qed.

(** A search registers a poll with the worker it starts, a worker
    turns into a message, a poll that finds a message goes with it, and
    a poll that finds none registers its successor. *)
Lemma step_balance host net ev self :
  pending_polls self = awaited self ->
  pending_polls (step host net ev self) = awaited (step host net ev self).
Proof.
  intros H. destruct ev as [n | n | |]; cbn [step].
  - destruct (nth_error (after_calls self) n) as [[ms cb]|] eqn:Hn; [|exact H].
    pose proof (remove_nth_filter is_poll _ _ _ Hn) as Hf.
    destruct cb; cbn in Hf.
    + apply on_search_balance. unfold pending_polls, awaited in *. cbn. lia.
    + apply process_queue_balance. unfold pending_polls, awaited in *. cbn. lia.
  - destruct (nth_error (threads self) n) as [loc|] eqn:Hn; [|exact H].
    pose proof (remove_nth_length _ _ _ Hn) as Hl.
    match goal with
    | |- context [snd (_ _ _ ?s)] =>
        destruct (background_fetch_queue net loc s) as (m & ->)
    end.
    unfold pending_polls, awaited in *. cbn. rewrite length_app. cbn. lia.
  - apply on_search_balance. exact H.
  - exact H.
Qed.

(** On every run from [__init__] there are as many pending polls as
    results on their way: a message on the queue always has a timer that
    will take it. *)
Lemma polls_balance_results host net evs file key w h st0 :
  init file key w h = inr st0 ->
  pending_polls (run host net evs st0) = awaited (run host net evs st0).
Proof.
  intros Hinit.
  assert (H0 : pending_polls st0 = awaited st0).
  { revert Hinit. unfold init, bind, ret.
    destruct (load_favorites file) as [e | favs]; [discriminate|].
    destruct (py_add _ favs) as [e | values]; [discriminate|].
    intros H. injection H as <-. reflexivity. }
  clear Hinit. revert st0 H0. unfold run.
  induction evs as [|ev evs IH]; intros s Hs; cbn [fold_left]; [exact Hs|].
  apply IH, step_balance, Hs.
Qed.

End Balance.

(** ** The hourly cards *)

Section HourlyCards.
Import PyStr Py Util WeatherFetcher Dashboard Frame Sample.












End HourlyCards.

Section CardsInvariant.
Import PyStr Py Util WeatherFetcher Dashboard Frame Sample.








(** The display of that snapshot has twelve cards. *)
Example thirteen_hours_twelve_cards :
  List.length (hourly_container
     (run host0 (provider 13) [Fire 0; WorkerDone 0; Fire 0] start)) = 12%nat.
Proof. vm_compute. reflexivity. Qed.

End CardsInvariant.

(** ** Absent fields *)

Section AbsentFields.
Import PyStr PyNum Py Util WeatherFetcher Dashboard Frame Sample.

(** The body of the hourly loop raises for an entry without [temp]
    (at the latest when it formats the temperature). *)
Lemma hourly_card_without_temp_raises host c i h s :
  get h "temp" PNone = inr PNone ->
  exists e, fst (hourly_card host c i h s) = inl e.
Proof.
  intros Htemp. unfold hourly_card, mbind, new_frame, pack_label, modify, lift.
  destruct (get h "dt" PNone) as [e | ts]; [eexists; reflexivity|].
  destruct (timestamp_to_local host ts (tz_offset c)) as [e | lt];
    [eexists; reflexivity|].
  destruct (lower_method _) as [e | main]; [eexists; reflexivity|].
  rewrite Htemp. eexists. reflexivity.
Qed.

(** C7 at the failing input: a snapshot whose first hourly entry has no
    temperature.  The update is abandoned inside the first card: the
    status line reports the error instead of the location, the card has
    its time and icon but no temperature, and the second entry gets no
    card at all. *)
Theorem update_aborts_on_hour_without_temp :
  let out := _update_ui_with_data host0 snapshot_hour_without_temp start in
  fst out = inr tt
  /\ text (snd out) status_label
     = "UI update error: unsupported format string passed to NoneType.__format__"
  /\ List.map (fun f => List.length (labels f)) (hourly_container (snd out))
     = [2%nat].
Proof. vm_compute. repeat split. Qed.

(** With the temperatures present the same snapshot is shown in full. *)
Example update_completes_with_temps :
  let out := _update_ui_with_data host0 (snapshot 2) start in
  fst out = inr tt
  /\ text (snd out) status_label = "Showing: None, None"
  /\ text (snd out) lbl_temp = "18.4¬∞C"
  /\ List.map (fun f => List.length (labels f)) (hourly_container (snd out))
     = [3%nat; 3%nat].
Proof. vm_compute. repeat split. Qed.

(** The current numeric fields may all be absent: the update completes.
    Temperature and feels-like keep the text they had, humidity and
    pressure print [None], the wind is 0 km/h, visibility and the sun
    times show their placeholders. *)
Example update_without_current_numbers :
  let shown := snd (_update_ui_with_data host0 (snapshot 2) start) in
  let out := _update_ui_with_data host0 snapshot_without_numbers shown in
  fst out = inr tt
  /\ text (snd out) status_label = "Showing: None, None"
  /\ text (snd out) lbl_temp = "18.4¬∞C"
  /\ text (snd out) lbl_feels = "Feels like 17.9¬∞C"
  /\ text (snd out) stat_humidity = "üíß Humidity: None%"
  /\ text (snd out) stat_wind = "üí® Wind: 0 km/h"
  /\ text (snd out) stat_pressure = "üß≠ Pressure: None hPa"
  /\ text (snd out) stat_visibility = "üëÅ Visibility: ‚Äî"
  /\ text (snd out) sunrise_label = "Sunrise: --:--"
  /\ text (snd out) sunset_label = "Sunset: --:--".
Proof. vm_compute. repeat split. Qed.

End AbsentFields.

(** ** The daylight arc *)

Section Daylight.
Import PyStr PyNum Py Util WeatherFetcher Dashboard Frame Spec Sample.












(** The scenario of the specification: 10000 of 35000 seconds of
    daylight have passed. *)
Example daylight_paris :
  daylight_pct (PInt 1700000000) (PInt 1700035000) 1700010000
  = inr (NFloat (round_div 10000 35000))
  /\ format_fixed 4 (round_div 10000 35000) = "0.2857".
Proof. vm_compute. split; reflexivity. Qed.

Example daylight_before_sunrise :
  daylight_pct (PInt 1700000000) (PInt 1700035000) 1699990000
  = inr (NFloat zero).
Proof. vm_compute. reflexivity. Qed.

Example daylight_after_sunset :
  daylight_pct (PInt 1700000000) (PInt 1700035000) 1700040000
  = inr (NFloat one).
Proof. vm_compute. reflexivity. Qed.

Example sun_arc_paris :
  sun_canvas (snd (_draw_sun_arc host0 (PInt 1700000000) (PInt 1700035000)
                                 (PInt 3600) start))
  = [Arc 100 (-20) 260 140 180 (NInt 180) "#111827" "#374151";
     Arc 100 (-20) 260 140 180
         (NFloat (PrimFloat.mul (round_div 10000 35000) 180)) "#f59e0b" "";
     SunDisc 180 60 80
         (NFloat (PrimFloat.add 180 (PrimFloat.mul (round_div 10000 35000) 180)))
         "#FFD166";
     CanvasText 12 12 "28% daylight" "#e5e7eb"].
Proof. vm_compute. reflexivity. Qed.

(** The label prints the whole percents of the binary64 product: 29
    seconds out of 100 are shown as 28%. *)
Example label_truncates :
  sun_canvas (snd (_draw_sun_arc (mkHost (fun _ => 0) 1029) (PInt 1000) (PInt 1100)
                                 (PInt 0) start))
  = [Arc 100 (-20) 260 140 180 (NInt 180) "#111827" "#374151";
     Arc 100 (-20) 260 140 180
         (NFloat (PrimFloat.mul (round_div 29 100) 180)) "#f59e0b" "";
     SunDisc 180 60 80
         (NFloat (PrimFloat.add 180 (PrimFloat.mul (round_div 29 100) 180)))
         "#FFD166";
     CanvasText 12 12 "28% daylight" "#e5e7eb"].
Proof. vm_compute. reflexivity. Qed.

End Daylight.

(* ================================================================== *)
(** * Part III. Further properties of the code                        *)
(* ================================================================== *)

(** ** The animation loop *)

Section AnimationLoop.
Import PyStr Spec WeatherCanvas.

(** X1.  While [_stop] is unset the loop never stalls: whatever the
    canvas is, destroyed or not, [n] passes of [_anim_loop] advance the
    tick by exactly [n] and leave the condition and [_stop] alone; a
    frame that raises costs nothing but its drawing. *)
Theorem anim_loop_ticks (self : WeatherCanvas.t) (n : nat) :
  _stop self = false ->
  _anim_t (_anim_loop n self) = _anim_t self + Z.of_nat n
  /\ condition (_anim_loop n self) = condition self
  /\ _stop (_anim_loop n self) = false.
Proof.
  intros Hrun. rewrite (anim_loop_running n self Hrun).
  induction n as [|n (IHt & IHc & IHs)]; [repeat split; cbn; try lia; exact Hrun|].
  rewrite Nat.iter_succ, anim_turn_tick, anim_turn_condition, anim_turn_stop.
  repeat split; try assumption. lia.
Qed.

Lemma anim_loop_ticks_witness :
  _anim_t (_anim_loop 3 (mk 420 240 Destroyed false 7 "rain")) = 7 + Z.of_nat 3
  /\ condition (_anim_loop 3 (mk 420 240 Destroyed false 7 "rain")) = "rain"
  /\ _stop (_anim_loop 3 (mk 420 240 Destroyed false 7 "rain")) = false.
Proof.
  apply (anim_loop_ticks (mk 420 240 Destroyed false 7 "rain") 3). reflexivity.
Defined.

(** X2.  [stop_animation] ends the animation: it sets [_stop], leaves a
    canvas without items, keeps tick and condition, and no later pass
    of [_anim_loop] draws or ticks again. *)
Theorem stop_animation_halts (self : WeatherCanvas.t) (n : nat) :
  _anim_loop n (stop_animation self) = stop_animation self
  /\ _stop (stop_animation self) = true
  /\ canvas_items (canvas (stop_animation self)) = []
  /\ _anim_t (stop_animation self) = _anim_t self
  /\ condition (stop_animation self) = condition self.
Proof.
  repeat split.
  - destruct n; reflexivity.
  - unfold stop_animation. cbn [canvas]. destruct (canvas self); reflexivity.
Qed.

Lemma step_at_most_two (self : WeatherCanvas.t) (c : Canvas) :
  _step self = inr c -> (List.length (canvas_items c) <= 2)%nat.
Proof.
  unfold _step. destruct (canvas self); [|discriminate].
  cbn [delete_all andThen].
  repeat match goal with
         | |- context [if ?b then _ else _] => destruct b
         end;
    cbn; intros H; injection H as <-; cbn; lia.
Qed.

Lemma step_raises_when_destroyed (self : WeatherCanvas.t) (e : TclError) :
  _step self = inl e -> canvas self = Destroyed.
Proof.
  unfold _step. destruct (canvas self); [|reflexivity].
  cbn [delete_all andThen].
  repeat match goal with
         | |- context [if ?b then _ else _] => destruct b
         end;
    cbn; discriminate.
Qed.

(** X3.  The canvas does not accumulate items: every frame starts from
    a cleared canvas, so after any turn of the loop, from any state, it
    holds at most two shapes. *)
Theorem canvas_never_accumulates (self : WeatherCanvas.t) (n : nat) :
  (List.length (canvas_items (canvas (Nat.iter (S n) anim_turn self))) <= 2)%nat.
Proof.
  rewrite Nat.iter_succ. generalize (Nat.iter n anim_turn self). intros s.
  unfold anim_turn. destruct (_step s) as [e | c] eqn:Hstep; cbn [canvas with_canvas].
  - rewrite (step_raises_when_destroyed s e Hstep). cbn. lia.
  - apply (step_at_most_two s c Hstep).
Qed.

Lemma step_draws_scene (self : WeatherCanvas.t) (items : list Shape) :
  canvas self = Live items ->
  exists k, selects (condition self) k
            /\ _step self = inr (Live (scene_items k (_anim_t self))).
Proof.
  intros Hlive. unfold _step. rewrite Hlive. cbn [delete_all andThen].
  destruct (rainy_reflect (condition self)) as [R|R];
    [exists RainOverCloud; split; [exact R | reflexivity]|].
  destruct (py_in_reflect "snow" (condition self)) as [S|S];
    [exists SnowOverCloud; split; [split; assumption | reflexivity]|].
  destruct (py_in_reflect "cloud" (condition self)) as [C|C];
    [exists PlainCloud; split; [repeat split; assumption | reflexivity]|].
  destruct (foggy_reflect (condition self)) as [F|F];
    [exists FogBands; split; [repeat split; assumption | reflexivity]|].
  destruct (stormy_reflect (condition self)) as [T|T].
  - exists LightningCloud. split; [repeat split; assumption|].
    cbn. destruct (_ =? 0); reflexivity.
  - exists AnimatedSun. split; [repeat split; assumption | reflexivity].
Qed.

Lemma flash_window (tk : Z) : (tk / 15) mod 10 = 0 <-> tk mod 150 < 15.
Proof.
  pose proof (Z.div_mod tk 150 ltac:(lia)) as H150.
  pose proof (Z.mod_pos_bound tk 150 ltac:(lia)) as B150.
  set (q := tk / 150) in *. set (r := tk mod 150) in *.
  assert (E : tk / 15 = 10 * q + r / 15).
  { rewrite H150. replace (150 * q + r) with (r + (10 * q) * 15) by lia.
    rewrite Z.div_add by lia. lia. }
  rewrite E.
  replace (10 * q + r / 15) with (r / 15 + q * 10) by lia.
  rewrite Z.mod_add by lia.
  assert (0 <= r / 15 < 10)
    by (split; [apply Z.div_pos; lia | apply Z.div_lt_upper_bound; lia]).
  rewrite Z.mod_small by lia.
  split; intros H0.
  - destruct (Z_lt_le_dec r 15); [assumption|].
    assert (1 <= r / 15) by (apply Z.div_le_lower_bound; lia). lia.
  - apply Z.div_small. lia.
Qed.

(** X4.  In the thunderstorm scene the lightning is drawn on the ticks
    [t] with [t mod 150 < 15], and on no others: fifteen ticks of flash
    in every hundred and fifty. *)
Theorem lightning_window (self : WeatherCanvas.t) (items : list Shape) :
  canvas self = Live items ->
  selects (condition self) LightningCloud ->
  exists c, _step self = inr c
            /\ (In Lightning (canvas_items c) <-> _anim_t self mod 150 < 15).
Proof.
  intros Hlive Hsel.
  destruct (step_draws_scene self items Hlive) as (k & Hk & Hstep).
  rewrite (selects_functional _ _ _ Hk Hsel) in Hstep.
  eexists. split; [exact Hstep|].
  cbn [canvas_items scene_items]. rewrite <- flash_window.
  destruct (Z.eqb_spec ((_anim_t self / 15) mod 10) 0) as [E|E]; cbn.
  - split; [intros _; exact E | intros _; right; left; reflexivity].
  - split; [intros [H|[]]; discriminate | intros H; contradiction].
Qed.

Lemma not_contains (w s : string) : py_in w s = false -> ~ Contains w s.
Proof.
  intros H C. apply py_in_Contains in C. rewrite H in C. discriminate.
Qed.

Lemma lightning_window_witness :
  exists c, _step (mk 420 240 (Live []) false 155 "thunderstorm") = inr c
            /\ (In Lightning (canvas_items c) <-> 155 mod 150 < 15).
Proof.
  apply (lightning_window (mk 420 240 (Live []) false 155 "thunderstorm") []).
  - reflexivity.
  - cbn [selects condition]. unfold rainy, snowy, cloudy, foggy, stormy.
    repeat split.
    + intros [H|H]; revert H; apply not_contains; reflexivity.
    + apply not_contains; reflexivity.
    + apply not_contains; reflexivity.
    + intros [H|[H|H]]; revert H; apply not_contains; reflexivity.
    + left. apply py_in_Contains. reflexivity.
Defined.





End AnimationLoop.

(** ** The utilities *)

Section Utilities.
Import PyStr PyNum Py Util.

Lemma fold_getitem_raised (e : PyExc) (keys : list Key) :
  fold_left (fun cur k => bind cur (fun c => getitem c k)) keys (inl e) = inl e.
Proof. induction keys as [|k keys IH]; [reflexivity | exact IH]. Qed.

Lemma safe_get_cons (d : PyVal) (k : Key) (keys : list Key) (default : PyVal) :
  safe_get d (k :: keys) default
  = match getitem d k with
    | inr v => safe_get v keys default
    | inl _ => default
    end.
Proof.
  unfold safe_get. cbn [fold_left]. unfold bind at 2, ret.
  destruct (getitem d k) as [e | v]; [|reflexivity].
  rewrite fold_getitem_raised. reflexivity.
Qed.


Example safe_get_weather_main :
  safe_get (PDict [("weather", PList [PDict [("main", PStr "Rain")]])])
           [KStr "weather"; KInt 0; KStr "main"] (PStr "Clear") = PStr "Rain"
  /\ safe_get (PDict [("weather", PList [])])
              [KStr "weather"; KInt 0; KStr "main"] (PStr "Clear") = PStr "Clear"
  /\ safe_get PNone [KStr "weather"; KInt 0; KStr "main"] (PStr "Clear") = PStr "Clear".
Proof. repeat split. Qed.





End Utilities.

(** ** What the fetch worker reports *)

Section WorkerReports.
Import PyStr PyNum Py Util WeatherFetcher Dashboard Outcome Sample.

(** [fetch], by the answers it got when it returns *)
Lemma fetch_returns net self loc c :
  fetch net self loc = inr c ->
  api_key self <> ""
  /\ exists r1 data r2 oc,
       net OWM_WEATHER_URL (weather_params (api_key self) loc) = inr r1
       /\ raise_for_status r1 = inr tt
       /\ body_json r1 = inr data
       /\ net OWM_ONECALL_URL
              [("lat", safe_get data [KStr "coord"; KStr "lat"] PNone);
               ("lon", safe_get data [KStr "coord"; KStr "lon"] PNone);
               ("exclude", PStr "minutely,alerts");
               ("appid", PStr (api_key self));
               ("units", PStr "metric")] = inr r2
       /\ raise_for_status r2 = inr tt
       /\ body_json r2 = inr (PDict oc)
       /\ c = mkCombined
                (py_str (safe_get data [KStr "name"; KStr ""] PNone) ++ ", "
                 ++ py_str (safe_get data [KStr "sys"; KStr "country"; KStr ""] PNone))
                (safe_get data [KStr "coord"; KStr "lat"] PNone)
                (safe_get data [KStr "coord"; KStr "lon"] PNone)
                (safe_get data [KStr "timezone"] (PInt 0))
                (match lookup "current" oc with Some v => v | None => PDict [] end)
                (match lookup "hourly" oc with Some v => v | None => PList [] end)
                (match lookup "daily" oc with Some v => v | None => PList [] end)
                data.
Proof.
  unfold fetch, weather_params.
  destruct (String.eqb_spec (api_key self) "") as [E|E]; [discriminate|].
  unfold bind.
  destruct (net OWM_WEATHER_URL _) as [e|r1] eqn:H1; [discriminate|].
  destruct (raise_for_status r1) as [e|[]] eqn:S1; [discriminate|].
  unfold json at 1. destruct (body_json r1) as [m|data] eqn:B1; [discriminate|].
  unfold ret at 1. cbv beta iota zeta.
  destruct (net OWM_ONECALL_URL _) as [e|r2] eqn:H2; [discriminate|].
  destruct (raise_for_status r2) as [e|[]] eqn:S2; [discriminate|].
  unfold json. destruct (body_json r2) as [m|oc] eqn:B2; [discriminate|].
  destruct oc as [ | | | | | |oc]; try discriminate.
  cbn [get ret]. intros H. injection H as <-.
  split; [exact E|]. exists r1, data, r2, oc. repeat split; assumption.
Qed.

Lemma safe_get_through_non_dict (d : PyVal) (keys : list Key) :
  is_dict (safe_get d keys PNone) = false ->
  safe_get d (keys ++ [KStr ""]) PNone = PNone.
Proof.
  revert d. induction keys as [|k keys IH]; intros d H.
  - cbn [app]. rewrite safe_get_cons. cbn in H.
    destruct d; try reflexivity. discriminate.
  - cbn [app]. rewrite safe_get_cons in *.
    destruct (getitem d k) as [e|v]; [reflexivity|]. apply IH. exact H.
Qed.

(** X9.  The location name of a snapshot never shows the place: [fetch]
    hands the empty string to [safe_get] as one more key, so unless the
    provider's [name] (or [sys.country]) is itself an object, the
    subscription fails and the label reads "None, None". *)
Theorem location_name_is_none net self loc c :
  fetch net self loc = inr c ->
  is_dict (safe_get (raw_weather c) [KStr "name"] PNone) = false ->
  is_dict (safe_get (raw_weather c) [KStr "sys"; KStr "country"] PNone) = false ->
  location_name c = "None, None".
Proof.
  intros Hf Hn Hc.
  destruct (fetch_returns net self loc c Hf) as (_ & r1 & data & r2 & oc & H).
  destruct H as (_ & _ & _ & _ & _ & _ & ->). cbn [raw_weather location_name] in *.
  pose proof (safe_get_through_non_dict data [KStr "name"] Hn) as En.
  pose proof (safe_get_through_non_dict data [KStr "sys"; KStr "country"] Hc) as Ec.
  cbn [app] in En, Ec. rewrite En, Ec. reflexivity.
Qed.

Lemma location_name_is_none_witness : location_name (snapshot 3) = "None, None".
Proof.
  apply (location_name_is_none (provider 3) (WeatherFetcher.mk "key") "Paris,FR"
           (snapshot 3)); reflexivity.
Defined.

Lemma raise_for_status_raises r he :
  raise_for_status r = inl he ->
  exc_class he = HTTPError /\ exc_response he = Some r
  /\ 400 <= status_code r < 600.
Proof.
  unfold raise_for_status.
  destruct (Z.leb_spec 400 (status_code r)), (Z.ltb_spec (status_code r) 500);
    cbn [andb].
  all: try (intros Heq; injection Heq as <-; repeat split; cbn; lia).
  all: destruct (Z.leb_spec 500 (status_code r)), (Z.ltb_spec (status_code r) 600);
    cbn [andb]; try discriminate;
    intros Heq; injection Heq as <-; repeat split; cbn; lia.
Qed.

(** X10.  When the provider answers the first request with an error
    status, the worker reports "API error: " followed by the [message]
    of the JSON body when the body is an object that has one, and by
    the text of the HTTP error otherwise (no JSON, not an object, no
    such key). *)
Theorem http_error_message net loc self r he :
  api_key (fetcher self) <> "" ->
  net OWM_WEATHER_URL (weather_params (api_key (fetcher self)) loc) = inr r ->
  raise_for_status r = inl he ->
  queue (snd (_background_fetch net loc self))
  = (queue self
     ++ [Error ("API error: "
                ++ match body_json r with
                   | inr (PDict d) =>
                       match lookup "message" d with
                       | Some v => py_str v
                       | None => exc_str he
                       end
                   | _ => exc_str he
                   end)])%list.
Proof.
  intros Hkey Hnet Hst.
  destruct (raise_for_status_raises r he Hst) as (Hclass & Hresp & _).
  assert (Hf : fetch net (fetcher self) loc = inl he).
  { unfold fetch. destruct (String.eqb_spec (api_key (fetcher self)) "");
      [contradiction|].
    unfold weather_params in Hnet. unfold bind. rewrite Hnet, Hst. reflexivity. }
  unfold _background_fetch, try_except, mbind, lift, queue_put, modify.
  rewrite Hf, Hclass, Hresp. unfold json, bind.
  destruct (body_json r) as [m | body]; [reflexivity|].
  destruct body; try reflexivity.
  cbn [get ret]. destruct (lookup "message" d); reflexivity.
Qed.

Lemma http_error_message_witness :
  queue (snd (_background_fetch provider_404 "Atlantis" start))
  = [Error "API error: city not found"].
Proof.
  exact (http_error_message provider_404 "Atlantis" start
           (mkResponse 404 "Not Found" OWM_WEATHER_URL
              (inr (PDict [("cod", PStr "404"); ("message", PStr "city not found")])))
           (mkExc HTTPError
              ("404 Client Error: Not Found for url: " ++ OWM_WEATHER_URL)
              (Some (mkResponse 404 "Not Found" OWM_WEATHER_URL
                 (inr (PDict [("cod", PStr "404");
                              ("message", PStr "city not found")])))))
           ltac:(discriminate) eq_refl eq_refl).
Defined.

(** X11.  Failures before any HTTP answer are reported with their own
    text: without an API key the worker reports that the key is not set,
    whatever the network would do; with a key, a request that raises
    anything but an HTTP error (no connection, time-out) is reported as
    "Fetch error: " followed by the text of the exception. *)
Theorem request_failure_message net loc self :
  (api_key (fetcher self) = "" ->
   queue (snd (_background_fetch net loc self))
   = (queue self ++ [Error "Fetch error: OpenWeatherMap API key not set."])%list)
  /\ (forall e,
        api_key (fetcher self) <> "" ->
        net OWM_WEATHER_URL (weather_params (api_key (fetcher self)) loc) = inl e ->
        exc_class e <> HTTPError ->
        queue (snd (_background_fetch net loc self))
        = (queue self ++ [Error ("Fetch error: " ++ exc_str e)])%list).
Proof.
  split.
  - intros Hkey.
    unfold _background_fetch, try_except, mbind, lift, queue_put, modify, fetch.
    rewrite Hkey. reflexivity.
  - intros e Hkey Hnet Hclass.
    assert (Hf : fetch net (fetcher self) loc = inl e).
    { unfold fetch. destruct (String.eqb_spec (api_key (fetcher self)) "");
        [contradiction|].
      unfold weather_params in Hnet. unfold bind. rewrite Hnet. reflexivity. }
    unfold _background_fetch, try_except, mbind, lift, queue_put, modify.
    rewrite Hf. destruct (exc_class e); try reflexivity. contradiction.
Qed.

Lemma request_failure_message_witness :
  queue (snd (_background_fetch (provider 3) "Paris,FR" start_without_key))
  = [Error "Fetch error: OpenWeatherMap API key not set."]
  /\ queue (snd (_background_fetch network_down "Paris,FR" start))
     = [Error "Fetch error: Read timed out. (read timeout=10)"].
Proof.
  split.
  - exact (proj1 (request_failure_message (provider 3) "Paris,FR" start_without_key)
             eq_refl).
  - exact (proj2 (request_failure_message network_down "Paris,FR" start)
             (mkExc RequestException "Read timed out. (read timeout=10)" None)
             ltac:(discriminate) eq_refl ltac:(discriminate)).
Defined.

(** X12.  [fetch] needs no field of either answer: it returns exactly
    when there is an API key, both requests are answered without an
    error status and with a JSON body, and the second body is an object.
    The snapshot then has the provider's [current], [hourly] and [daily]
    as they came (empty where absent) and the offset 0 where [timezone]
    is absent. *)
Theorem fetch_returns_iff net self loc c :
  fetch net self loc = inr c
  <-> api_key self <> ""
      /\ exists r1 data r2 oc,
           net OWM_WEATHER_URL (weather_params (api_key self) loc) = inr r1
           /\ raise_for_status r1 = inr tt
           /\ body_json r1 = inr data
           /\ net OWM_ONECALL_URL
                  [("lat", safe_get data [KStr "coord"; KStr "lat"] PNone);
                   ("lon", safe_get data [KStr "coord"; KStr "lon"] PNone);
                   ("exclude", PStr "minutely,alerts");
                   ("appid", PStr (api_key self));
                   ("units", PStr "metric")] = inr r2
           /\ raise_for_status r2 = inr tt
           /\ body_json r2 = inr (PDict oc)
           /\ c = mkCombined
                    (py_str (safe_get data [KStr "name"; KStr ""] PNone) ++ ", "
                     ++ py_str (safe_get data [KStr "sys"; KStr "country"; KStr ""]
                                         PNone))
                    (safe_get data [KStr "coord"; KStr "lat"] PNone)
                    (safe_get data [KStr "coord"; KStr "lon"] PNone)
                    (safe_get data [KStr "timezone"] (PInt 0))
                    (match lookup "current" oc with Some v => v | None => PDict [] end)
                    (match lookup "hourly" oc with Some v => v | None => PList [] end)
                    (match lookup "daily" oc with Some v => v | None => PList [] end)
                    data.
Proof.
  split; [apply fetch_returns|].
  intros (Hkey & r1 & data & r2 & oc & H1 & S1 & B1 & H2 & S2 & B2 & ->).
  unfold fetch. destruct (String.eqb_spec (api_key self) ""); [contradiction|].
  unfold weather_params in H1. unfold bind, json.
  rewrite H1, S1, B1. unfold ret at 1. cbv beta iota zeta.
  rewrite H2, S2, B2. reflexivity.
Qed.

(** answers without any of the fields the program reads *)
Example fetch_from_empty_answers :
  fetch (fun _ _ => inr (ok_response (PDict []))) (WeatherFetcher.mk "key") "x"
  = inr (mkCombined "None, None" PNone PNone (PInt 0)
                    (PDict []) (PList []) (PList []) (PDict [])).
Proof. reflexivity. Qed.

End WorkerReports.

(** ** What applying a snapshot always does *)

Section FrameOfDrawing.
Import PyStr PyNum Py Util WeatherFetcher Dashboard Frame Outcome.

Variable R : Dashboard.t -> Dashboard.t -> Prop.
Hypothesis R_refl : forall s, R s s.
Hypothesis R_trans : forall a b c, R a b -> R b c -> R a c.
Hypothesis R_sun : forall s c, R s (with_sun_canvas s c).
Hypothesis R_hourly : forall s c, R s (with_hourly_container s c).

Lemma draw_sun_arc_keeps host a b c : keeps R (_draw_sun_arc host a b c).
Proof.
  unfold _draw_sun_arc. keeps_go R_refl R_trans ltac:(apply R_sun).
Qed.

Lemma hourly_card_keeps host c i h : keeps R (hourly_card host c i h).
Proof.
  unfold hourly_card. keeps_go R_refl R_trans ltac:(apply R_hourly).
Qed.

Lemma hourly_loop_keeps host c hs : forall i, keeps R (hourly_loop host c i hs).
Proof.
  induction hs as [|h hs IH]; intros i; cbn [hourly_loop].
  - apply (keeps_mret _ R_refl).
  - apply (keeps_mbind _ R_trans); [apply hourly_card_keeps|].
    intros _. apply IH.
Qed.

End FrameOfDrawing.

Section Applying.
Import PyStr PyNum Py Util WeatherFetcher Dashboard Frame Outcome Spec Sample.

Lemma on_return_bind {A B} (Q : Dashboard.t -> Prop) (m : M A) (k : A -> M B) :
  (forall y, on_return Q (k y)) -> on_return Q (mbind m k).
Proof.
  intros Hk s x s' H. unfold mbind in H.
  destruct (m s) as [[e | y] s1]; [discriminate|].
  apply (Hk y s1 x s' H).
Qed.

Lemma try_bind_modify {A} (f : Dashboard.t -> Dashboard.t) (k : unit -> M A)
      (h : PyExc -> M A) (s : Dashboard.t) :
  try_except (mbind (modify f) k) h s = try_except (k tt) h (f s).
Proof. reflexivity. Qed.

Lemma try_bind_lift {A B} (v : A) (k : A -> M B) (h : PyExc -> M B)
      (s : Dashboard.t) :
  try_except (mbind (lift (inr v)) k) h s = try_except (k v) h s.
Proof. reflexivity. Qed.

Lemma update_body_status host c :
  on_return (fun s' => text s' status_label = "Showing: " ++ location_name c)
            (update_body host c).
Proof.
  unfold update_body.
  repeat (apply on_return_bind; intros ?).
  intros s x s' H. unfold set_status, configure, modify in H.
  injection H as _ <-. reflexivity.
Qed.

Lemma update_returns host c s : fst (_update_ui_with_data host c s) = inr tt.
Proof.
  unfold _update_ui_with_data, try_except.
  destruct (update_body host c s) as [[e | []] s']; reflexivity.
Qed.

(** X13.  Applying a snapshot never raises: the call returns, and the
    status line then reads "Showing: " with the location name when the
    [try] block ran to its end, and "UI update error: " with the text
    of the exception when it did not. *)
Theorem update_returns_with_status host c s :
  fst (_update_ui_with_data host c s) = inr tt
  /\ text (snd (_update_ui_with_data host c s)) status_label
     = match fst (update_body host c s) with
       | inr _ => "Showing: " ++ location_name c
       | inl e => "UI update error: " ++ exc_str e
       end.
Proof.
  split; [apply update_returns|].
  unfold _update_ui_with_data, try_except.
  destruct (update_body host c s) as [[e | x] s'] eqn:E; cbn [fst snd].
  - reflexivity.
  - apply (update_body_status host c s x s' E).
Qed.

(** X14.  No exception leaves the poller: in every state, with every
    message at the head of the queue, [_process_queue] returns. *)
Theorem process_queue_returns host self :
  fst (_process_queue host self) = inr tt.
Proof.
  destruct (queue self) as [|[data | payload] rest] eqn:Hq.
  - rewrite (process_queue_empty host self Hq). reflexivity.
  - rewrite (process_queue_ok host self data rest Hq). apply update_returns.
  - rewrite (process_queue_error host self payload rest Hq). reflexivity.
Qed.

Lemma same_label_refl l s : same_label l s s.
Proof. reflexivity. Qed.

Lemma same_label_trans l a b c :
  same_label l a b -> same_label l b c -> same_label l a c.
Proof. unfold same_label. congruence. Qed.

Lemma same_renderer_refl s : same_renderer s s.
Proof. reflexivity. Qed.

Lemma same_renderer_trans a b c :
  same_renderer a b -> same_renderer b c -> same_renderer a c.
Proof. unfold same_renderer. congruence. Qed.

(** X15.  The location label always shows the location name of the
    snapshot being applied, also when the update is abandoned later. *)
Theorem update_sets_location host c s :
  text (snd (_update_ui_with_data host c s)) lbl_location = location_name c.
Proof.
  unfold _update_ui_with_data, update_body.
  match goal with
  | |- context [try_except (mbind (configure ?l ?v) ?k) ?h] =>
      assert (K : keeps (same_label lbl_location) (try_except (k tt) h))
  end.
  { keeps_go_with
      ltac:(idtac;
            match goal with
            | |- keeps _ (_draw_sun_arc _ _ _ _) =>
                apply draw_sun_arc_keeps;
                first [apply same_label_refl | apply same_label_trans
                      | intros; reflexivity]
            | |- keeps _ (hourly_loop _ _ _ _) =>
                apply hourly_loop_keeps;
                first [apply same_label_refl | apply same_label_trans
                      | intros; reflexivity]
            end)
      (same_label_refl lbl_location) (same_label_trans lbl_location)
      ltac:(reflexivity). }
  unfold configure at 1. rewrite try_bind_modify, K. reflexivity.
Qed.

End Applying.

Section Routing.
Import PyStr PyNum Py Util WeatherFetcher Dashboard Frame Outcome Spec Sample.

Lemma lower_char_idempotent (c : ascii) : lower_char (lower_char c) = lower_char c.
Proof. destruct c as [[] [] [] [] [] [] [] []]; reflexivity. Qed.

Lemma lower_idempotent (s : string) : lower (lower s) = lower s.
Proof.
  induction s as [|c s IH]; [reflexivity|].
  cbn [lower]. now rewrite lower_char_idempotent, IH.
Qed.

Lemma set_condition_of_lower (wc : WeatherCanvas.t) (main : string) :
  WeatherCanvas.condition (WeatherCanvas.set_condition wc (Some (lower main)))
  = stored_condition (Some main).
Proof.
  destruct main as [|a r]; [reflexivity|].
  cbn [lower WeatherCanvas.set_condition WeatherCanvas.condition stored_condition
       String.eqb].
  rewrite lower_char_idempotent, lower_idempotent. reflexivity.
Qed.

(** X16.  The condition of the snapshot reaches the renderer: when the
    current conditions are an object whose [weather[0].main] and
    [weather[0].description] are strings or absent, the renderer ends
    with the lower-cased [main] ("clear" when absent or empty) and tick
    0, whatever else in the snapshot makes the update fail later. *)
Theorem update_routes_condition host c s d desc main :
  current c = PDict d ->
  safe_get (PDict d) [KStr "weather"; KInt 0; KStr "description"] (PStr "")
  = PStr desc ->
  safe_get (PDict d) [KStr "weather"; KInt 0; KStr "main"] (PStr "Clear")
  = PStr main ->
  WeatherCanvas.condition (weather_canvas (snd (_update_ui_with_data host c s)))
  = stored_condition (Some main)
  /\ WeatherCanvas._anim_t (weather_canvas (snd (_update_ui_with_data host c s))) = 0.
Proof.
  intros Hcur Hdesc Hmain.
  assert (E : weather_canvas (snd (_update_ui_with_data host c s))
              = WeatherCanvas.set_condition (weather_canvas s) (Some (lower main)));
    [| rewrite E; split; [apply set_condition_of_lower | reflexivity]].
  unfold _update_ui_with_data, update_body. rewrite Hcur, Hdesc, Hmain.
  unfold configure at 1. rewrite try_bind_modify.
  cbn [get title_method lower_method ret]. rewrite !try_bind_lift.
  unfold set_condition at 1. rewrite try_bind_modify.
  match goal with
  | |- context [try_except ?m ?h ?s2] =>
      assert (K : keeps same_renderer (try_except m h))
  end.
  { keeps_go_with
      ltac:(idtac;
            match goal with
            | |- keeps _ (_draw_sun_arc _ _ _ _) =>
                apply draw_sun_arc_keeps;
                first [apply same_renderer_refl | apply same_renderer_trans
                      | intros; reflexivity]
            | |- keeps _ (hourly_loop _ _ _ _) =>
                apply hourly_loop_keeps;
                first [apply same_renderer_refl | apply same_renderer_trans
                      | intros; reflexivity]
            end)
      same_renderer_refl same_renderer_trans ltac:(reflexivity). }
  unfold keeps, same_renderer in K. rewrite K. reflexivity.
Qed.

Lemma update_routes_condition_witness :
  WeatherCanvas.condition
    (weather_canvas (snd (_update_ui_with_data host0 snapshot_hour_without_temp start)))
  = stored_condition (Some "Rain")
  /\ WeatherCanvas._anim_t
       (weather_canvas (snd (_update_ui_with_data host0 snapshot_hour_without_temp
                                                  start))) = 0.
Proof.
  apply (update_routes_condition host0 snapshot_hour_without_temp start
           [("temp", PFloat 18.4); ("feels_like", PFloat 17.9);
            ("humidity", PInt 81); ("wind_speed", PFloat 2.5);
            ("pressure", PInt 1013); ("visibility", PInt 10000);
            ("sunrise", PInt 1700000000); ("sunset", PInt 1700035000);
            ("weather", rain)]
           "light rain" "Rain"); reflexivity.
Defined.

Lemma sun_items_added_refl s : sun_items_added s s.
Proof. exists []. now rewrite app_nil_r. Qed.

Lemma sun_items_added_trans a b c :
  sun_items_added a b -> sun_items_added b c -> sun_items_added a c.
Proof.
  intros [m1 H1] [m2 H2]. exists (m1 ++ m2)%list.
  now rewrite H2, H1, app_assoc.
Qed.

Lemma bind_modify_run {A} (f : Dashboard.t -> Dashboard.t) (k : unit -> M A)
      (s : Dashboard.t) :
  mbind (modify f) k s = k tt (f s).
Proof. reflexivity. Qed.

(** X17.  [_draw_sun_arc] returns for every pair of timestamps, numbers
    or not: the canvas is emptied, the grey half disc is drawn first,
    and whatever fails after that only ends the drawing. *)
Theorem draw_sun_arc_total host a b tz s :
  fst (_draw_sun_arc host a b tz s) = inr tt
  /\ exists x0 y0 x1 y1 more,
       sun_canvas (snd (_draw_sun_arc host a b tz s))
       = Arc x0 y0 x1 y1 180 (NInt 180) "#111827" "#374151" :: more.
Proof.
  assert (E : exists s' x0 y0 x1 y1 more,
               _draw_sun_arc host a b tz s = (inr tt, s')
               /\ sun_canvas s'
                  = Arc x0 y0 x1 y1 180 (NInt 180) "#111827" "#374151" :: more).
  { unfold _draw_sun_arc. unfold sun_delete_all at 1. rewrite try_bind_modify.
    unfold try_except. cbv beta zeta.
    match goal with
    | |- context [mbind (sun_create ?a) ?k ?s0] =>
        assert (K : keeps sun_items_added (k tt));
        [| change (mbind (sun_create a) k s0) with (k tt (snd (sun_create a s0)));
           specialize (K (snd (sun_create a s0)));
           destruct (k tt (snd (sun_create a s0))) as [[e | []] s2] ]
    end.
    { keeps_go sun_items_added_refl sun_items_added_trans
               ltac:(eexists; reflexivity). }
    all: destruct K as [more K];
      cbn [fst snd mret sun_create modify sun_canvas with_sun_canvas app] in *;
      exists s2; do 4 eexists; exists more; split; [reflexivity | exact K]. }
  destruct E as (s' & x0 & y0 & x1 & y1 & more & -> & E).
  split; [reflexivity|]. exists x0, y0, x1, y1, more. exact E.
Qed.

Example sun_arc_without_numbers :
  _draw_sun_arc host0 (PStr "dawn") PNone PNone start
  = (inr tt, with_sun_canvas start
               [Arc 100 (-20) 260 140 180 (NInt 180) "#111827" "#374151"]).
Proof. reflexivity. Qed.

End Routing.

(** ** Sessions *)

Section Sessions.
Import PyStr PyNum Py Util WeatherFetcher Dashboard Frame Handlers Outcome Sample.

Lemma on_refresh_balance self :
  pending_polls self = awaited self ->
  pending_polls (snd (on_refresh self)) = awaited (snd (on_refresh self)).
Proof.
  intros H. unfold on_refresh.
  destruct (String.eqb _ _); [exact H | apply on_search_balance, H].
Qed.

Lemma on_favorite_select_balance val self :
  pending_polls self = awaited self ->
  pending_polls (snd (on_favorite_select val self))
  = awaited (snd (on_favorite_select val self)).
Proof.
  intros H. unfold on_favorite_select.
  destruct (_ || _)%bool; [exact H | apply on_search_balance, H].
Qed.

Lemma save_current_favorite_plumbing o disk self :
  after_calls (fst (snd (save_current_favorite o disk self))) = after_calls self
  /\ threads (fst (snd (save_current_favorite o disk self))) = threads self
  /\ queue (fst (snd (save_current_favorite o disk self))) = queue self.
Proof.
  unfold save_current_favorite, set_status, configure, modify.
  destruct (String.eqb _ _); [repeat split|].
  destruct (contains _ _) as [e | []]; [repeat split | repeat split |].
  destruct (insert0 _ _) as [e | inserted]; [repeat split|].
  cbv zeta.
  destruct (py_add _ _) as [e | values]; repeat split.
Qed.

Lemma act_balance host net a st :
  pending_polls (fst st) = awaited (fst st) ->
  pending_polls (fst (act host net a st)) = awaited (fst (act host net a st)).
Proof.
  intros H. destruct a as [ev | | val | o]; cbn [act fst].
  - apply step_balance, H.
  - apply on_refresh_balance, H.
  - apply on_favorite_select_balance, H.
  - destruct (save_current_favorite_plumbing o (snd st) (fst st)) as (Ha & Ht & Hq).
    unfold pending_polls, awaited in *. rewrite Ha, Ht, Hq. exact H.
Qed.

(** X18.  Every result has its poll.  On every session from
    [__init__], over any timers, workers, ticks, searches, refreshes,
    menu choices and saves, there are exactly as many pending calls of
    the poller as there are workers still running plus messages on the
    queue: each fetch that is started gets one poll, and a poll ends
    only by taking a message. *)
Theorem session_balance host net acts file key w h st0 :
  init file key w h = inr st0 ->
  pending_polls (fst (session host net acts (st0, file)))
  = awaited (fst (session host net acts (st0, file))).
Proof.
  intros Hinit.
  assert (H0 : pending_polls (fst (st0, file)) = awaited (fst (st0, file))).
  { revert Hinit. unfold init, bind, ret.
    destruct (load_favorites file) as [e | favs]; [discriminate|].
    destruct (py_add _ favs) as [e | values]; [discriminate|].
    intros H. injection H as <-. reflexivity. }
  clear Hinit. revert H0. generalize (st0, file). unfold session.
  induction acts as [|a acts IH]; intros st Hs; cbn [fold_left]; [exact Hs|].
  apply IH, act_balance, Hs.
Qed.

Lemma session_balance_witness :
  pending_polls (fst (session host0 (provider 3)
     [Loop (Fire 0); Refresh; SelectFavorite "Oslo,NO"; Loop (WorkerDone 1);
      SaveFavorite Written; Loop (Fire 1)] (start, Missing)))
  = awaited (fst (session host0 (provider 3)
     [Loop (Fire 0); Refresh; SelectFavorite "Oslo,NO"; Loop (WorkerDone 1);
      SaveFavorite Written; Loop (Fire 1)] (start, Missing))).
Proof.
  apply (session_balance host0 (provider 3)
           [Loop (Fire 0); Refresh; SelectFavorite "Oslo,NO"; Loop (WorkerDone 1);
            SaveFavorite Written; Loop (Fire 1)] Missing "key" 360 60 start).
  reflexivity.
Defined.

Example session_counts :
  let s := fst (session host0 (provider 3)
     [Loop (Fire 0); Refresh; SelectFavorite "Oslo,NO"; Loop (WorkerDone 1);
      SaveFavorite Written; Loop (Fire 1)] (start, Missing)) in
  pending_polls s = 2%nat /\ threads s = ["New York,US"; "Oslo,NO"]
  /\ List.length (queue s) = 0%nat
  /\ favorites s = PList [PStr "Oslo,NO"].
Proof. vm_compute. repeat split. Qed.

End Sessions.

(** ** The favourites list *)

Section FavouritesList.
Import PyStr PyNum Py Util WeatherFetcher Dashboard Frame Handlers Outcome Sample.

Lemma contains_list (l : list PyVal) (loc : string) :
  contains (PList l) loc = inr true <-> In (PStr loc) l.
Proof.
  unfold contains, ret. split.
  - intros H. injection H as H. apply existsb_exists in H.
    destruct H as (v & Hin & Hv). destruct v; try discriminate.
    apply String.eqb_eq in Hv. subst. exact Hin.
  - intros H. f_equal. apply existsb_exists. exists (PStr loc).
    split; [exact H | apply String.eqb_refl].
Qed.

Lemma contains_list_false (l : list PyVal) (loc : string) :
  ~ In (PStr loc) l -> contains (PList l) loc = inr false.
Proof.
  intros H. destruct (contains (PList l) loc) as [e | []] eqn:E.
  - discriminate E.
  - apply contains_list in E. contradiction.
  - reflexivity.
Qed.

Lemma save_new_favorite o disk self l :
  favorites self = PList l ->
  strip (search_var self) <> "" ->
  ~ In (PStr (strip (search_var self))) l ->
  save_current_favorite o disk self
  = (inr tt,
     (with_text
        (with_fav_menu_values
           (with_favorites self (PList (firstn 12 (PStr (strip (search_var self)) :: l))))
           (PList (PStr "(none)" :: firstn 12 (PStr (strip (search_var self)) :: l))))
        (fun l' => if Label_eqb l' status_label
                   then "Saved favorite: " ++ strip (search_var self)
                   else text self l'),
      snd (save_favorites o
             (PList (firstn 12 (PStr (strip (search_var self)) :: l))) disk))).
Proof.
  intros Hf Hloc Hnew. unfold save_current_favorite.
  apply String.eqb_neq in Hloc. rewrite Hloc, Hf.
  rewrite (contains_list_false l _ Hnew). reflexivity.
Qed.

(** X19.  Saving a location that is not blank and not yet a favourite
    puts it first, keeps the older ones in their order and drops what
    comes after the twelfth; the menu shows "(none)" and then the new
    list.  This happens, and the status line says "Saved favorite",
    whether or not the file could be written: a failed [open] leaves the
    file as it was, with the list in memory ahead of it. *)
Theorem save_favorite_puts_first o disk self l :
  favorites self = PList l ->
  strip (search_var self) <> "" ->
  ~ In (PStr (strip (search_var self))) l ->
  let loc := strip (search_var self) in
  let out := save_current_favorite o disk self in
  fst out = inr tt
  /\ favorites (fst (snd out)) = PList (firstn 12 (PStr loc :: l))
  /\ fav_menu_values (fst (snd out))
     = PList (PStr "(none)" :: firstn 12 (PStr loc :: l))
  /\ text (fst (snd out)) status_label = "Saved favorite: " ++ loc
  /\ snd (snd out)
     = match o with
       | Written => Text (inr (PList (firstn 12 (PStr loc :: l))))
       | OpenFails _ => disk
       | DumpFails _ remains => Text remains
       end.
Proof.
  intros Hf Hloc Hnew loc out. subst out loc.
  rewrite (save_new_favorite o disk self l Hf Hloc Hnew).
  repeat split. destruct o; reflexivity.
Qed.

Lemma save_favorite_puts_first_witness :
  favorites (fst (snd (save_current_favorite (OpenFails (exc OSError "read-only"))
                         Missing about_to_save)))
  = PList [PStr "Lima,PE"; PStr "Paris,FR"; PStr "Oslo,NO"]
  /\ text (fst (snd (save_current_favorite (OpenFails (exc OSError "read-only"))
                        Missing about_to_save))) status_label
     = "Saved favorite: Lima,PE"
  /\ snd (snd (save_current_favorite (OpenFails (exc OSError "read-only"))
                 Missing about_to_save)) = Missing.
Proof.
  assert (Hloc : strip (search_var about_to_save) <> "") by (vm_compute; discriminate).
  assert (Hnew : ~ In (PStr (strip (search_var about_to_save)))
                      [PStr "Paris,FR"; PStr "Oslo,NO"]).
  { vm_compute. intros [H | [H | []]]; discriminate H. }
  destruct (save_favorite_puts_first (OpenFails (exc OSError "read-only")) Missing
              about_to_save [PStr "Paris,FR"; PStr "Oslo,NO"] eq_refl Hloc Hnew)
    as (_ & H1 & _ & H3 & H4).
  split; [exact H1 | split; [exact H3 | exact H4]].
Defined.

Lemma favourite_or_not (l : list PyVal) (loc : string) :
  In (PStr loc) l \/ ~ In (PStr loc) l.
Proof.
  destruct (contains (PList l) loc) as [e | []] eqn:E.
  - discriminate E.
  - left. apply contains_list, E.
  - right. intros H. apply contains_list in H. congruence.
Qed.

(** X20.  Saving a blank location, or one that is already a favourite,
    changes neither the list, nor the menu, nor the file: the list is
    not reordered and the file is not rewritten. *)
Theorem save_favorite_known_or_blank o disk self :
  strip (search_var self) = ""
  \/ (exists l, favorites self = PList l /\ In (PStr (strip (search_var self))) l) ->
  let out := save_current_favorite o disk self in
  fst out = inr tt
  /\ favorites (fst (snd out)) = favorites self
  /\ fav_menu_values (fst (snd out)) = fav_menu_values self
  /\ snd (snd out) = disk.
Proof.
  intros H out. subst out.
  unfold save_current_favorite, set_status, configure, modify.
  destruct (String.eqb (strip (search_var self)) "") eqn:E.
  - repeat split.
  - destruct H as [H | (l & Hf & Hin)].
    + apply String.eqb_neq in E. contradiction.
    + apply contains_list in Hin. rewrite <- Hf in Hin. rewrite Hin.
      repeat split.
Qed.

Lemma save_favorite_known_or_blank_witness :
  fst (save_current_favorite Written Missing already_saved) = inr tt
  /\ favorites (fst (snd (save_current_favorite Written Missing already_saved)))
     = favorites already_saved
  /\ fav_menu_values (fst (snd (save_current_favorite Written Missing already_saved)))
     = fav_menu_values already_saved
  /\ snd (snd (save_current_favorite Written Missing already_saved)) = Missing.
Proof.
  apply (save_favorite_known_or_blank Written Missing already_saved).
  right. exists [PStr "Paris,FR"; PStr "New York,US"].
  split; [reflexivity | right; left; reflexivity].
Defined.

(** *** Over a session *)

Lemma on_search_favorites self :
  favorites (snd (on_search self)) = favorites self
  /\ fav_menu_values (snd (on_search self)) = fav_menu_values self.
Proof. unfold on_search. destruct (String.eqb _ _); split; reflexivity. Qed.

Lemma process_queue_favorites host self :
  favorites (snd (_process_queue host self)) = favorites self
  /\ fav_menu_values (snd (_process_queue host self)) = fav_menu_values self.
Proof.
  destruct (queue self) as [|[data | payload] rest] eqn:Hq.
  - rewrite (process_queue_empty host self Hq). split; reflexivity.
  - rewrite (process_queue_ok host self data rest Hq).
    match goal with
    | |- context [snd (_ _ _ ?s)] =>
        destruct (update_plumbing host data s) as (_&_&_&_&_&_&_&Hf&Hm&_&_)
    end.
    rewrite Hf, Hm. split; reflexivity.
  - rewrite (process_queue_error host self payload rest Hq). split; reflexivity.
Qed.

Lemma step_favorites host net ev self :
  favorites (step host net ev self) = favorites self
  /\ fav_menu_values (step host net ev self) = fav_menu_values self.
Proof.
  destruct ev as [n | n | |]; cbn [step].
  - destruct (nth_error (after_calls self) n) as [[ms cb]|]; [|split; reflexivity].
    destruct cb.
    + match goal with
      | |- context [snd (on_search ?s)] => destruct (on_search_favorites s) as [-> ->]
      end.
      split; reflexivity.
    + match goal with
      | |- context [snd (_ _ ?s)] => destruct (process_queue_favorites host s) as [-> ->]
      end.
      split; reflexivity.
  - destruct (nth_error (threads self) n) as [loc|]; [|split; reflexivity].
    match goal with
    | |- context [snd (_ _ _ ?s)] =>
        destruct (background_fetch_queue net loc s) as (m & ->)
    end.
    split; reflexivity.
  - apply on_search_favorites.
  - split; reflexivity.
Qed.

(** what an action other than a save does to the list and the file *)
Lemma act_favorites host net a st :
  (forall o, a <> SaveFavorite o) ->
  favorites (fst (act host net a st)) = favorites (fst st)
  /\ fav_menu_values (fst (act host net a st)) = fav_menu_values (fst st)
  /\ snd (act host net a st) = snd st.
Proof.
  intros Ha. destruct a as [ev | | val | o]; cbn [act fst snd].
  - destruct (step_favorites host net ev (fst st)) as [-> ->]. repeat split.
  - unfold on_refresh. destruct (String.eqb _ _); [repeat split|].
    destruct (on_search_favorites (fst st)) as [-> ->]. repeat split.
  - unfold on_favorite_select. destruct (_ || _)%bool; [repeat split|].
    match goal with
    | |- context [snd (on_search ?s)] => destruct (on_search_favorites s) as [-> ->]
    end.
    repeat split.
  - exfalso. apply (Ha o). reflexivity.
Qed.

Lemma firstn_NoDup {A} (n : nat) (l : list A) : NoDup l -> NoDup (firstn n l).
Proof.
  intros H. revert n. induction H as [|x l Hx H IH]; intros [|n]; cbn;
    try constructor.
  - intros Hin. apply Hx. revert Hin. clear. revert n.
    induction l as [|y l IHl]; intros [|n]; cbn; try tauto.
    intros [-> | H]; [left; reflexivity | right; apply (IHl n H)].
  - apply IH.
Qed.

Lemma save_keeps_tidy o disk self l :
  favorites self = PList l ->
  (List.length l <= 12)%nat -> NoDup l ->
  fav_menu_values self = PList (PStr "(none)" :: l) ->
  exists l',
    favorites (fst (snd (save_current_favorite o disk self))) = PList l'
    /\ (List.length l' <= 12)%nat /\ NoDup l'
    /\ fav_menu_values (fst (snd (save_current_favorite o disk self)))
       = PList (PStr "(none)" :: l').
Proof.
  intros Hf Hlen Hnd Hm.
  destruct (String.eqb (strip (search_var self)) "") eqn:E.
  - unfold save_current_favorite, set_status, configure, modify. rewrite E.
    exists l. auto.
  - destruct (favourite_or_not l (strip (search_var self))) as [Hin | Hnew].
    + unfold save_current_favorite, set_status, configure, modify. rewrite E.
      apply contains_list in Hin. rewrite <- Hf in Hin. rewrite Hin.
      exists l. auto.
    + apply String.eqb_neq in E.
      rewrite (save_new_favorite o disk self l Hf E Hnew). cbn [fst snd].
      exists (firstn 12 (PStr (strip (search_var self)) :: l)).
      split; [reflexivity|]. split; [apply firstn_le_length|].
      split; [|reflexivity].
      apply firstn_NoDup. constructor; assumption.
Qed.

Lemma init_favorites file key w h st0 :
  init file key w h = inr st0 ->
  load_favorites file = inr (favorites st0)
  /\ py_add (PList [PStr "(none)"]) (favorites st0) = inr (fav_menu_values st0).
Proof.
  unfold init, bind, ret.
  destruct (load_favorites file) as [e | favs]; [discriminate|].
  destruct (py_add _ favs) as [e | values] eqn:E; [discriminate|].
  intros H. injection H as <-. split; [reflexivity | exact E].
Qed.

Lemma menu_of_list (l : list PyVal) (values : PyVal) :
  py_add (PList [PStr "(none)"]) (PList l) = inr values ->
  values = PList (PStr "(none)" :: l).
Proof. cbn. intros H. injection H as <-. reflexivity. Qed.

(** X21.  The list stays in order.  When the program starts from a
    favourites file that holds at most twelve entries, none of them
    twice (or from no usable file), then at every point of every
    session the favourites are a list of at most twelve entries without
    a repeat, and the menu offers "(none)" followed by exactly that
    list: whatever is searched, selected and saved, and whether or not
    the writes succeed. *)
Theorem session_keeps_favorites_tidy host net acts file key w h st0 :
  init file key w h = inr st0 ->
  tidy (favorites st0) ->
  exists l,
    favorites (fst (session host net acts (st0, file))) = PList l
    /\ (List.length l <= 12)%nat /\ NoDup l
    /\ fav_menu_values (fst (session host net acts (st0, file)))
       = PList (PStr "(none)" :: l).
Proof.
  intros Hinit (l0 & Hf0 & Hlen0 & Hnd0).
  destruct (init_favorites file key w h st0 Hinit) as [_ Hm0].
  rewrite Hf0 in Hm0. apply menu_of_list in Hm0. clear Hinit.
  assert (H0 : exists l, favorites (fst (st0, file)) = PList l
                         /\ (List.length l <= 12)%nat /\ NoDup l
                         /\ fav_menu_values (fst (st0, file))
                            = PList (PStr "(none)" :: l)).
  { exists l0. auto. }
  clear l0 Hf0 Hlen0 Hnd0 Hm0. revert H0. generalize (st0, file).
  unfold session.
  induction acts as [|a acts IH]; intros st Hs; cbn [fold_left]; [exact Hs|].
  apply IH. destruct Hs as (l & Hf & Hlen & Hnd & Hm).
  destruct a as [ev | | val | o].
  1-3: match goal with
       | |- context [act _ _ ?a _] =>
           destruct (act_favorites host net a st) as (-> & -> & _);
             [intros o; discriminate | exists l; auto]
       end.
  cbn [act]. apply (save_keeps_tidy o (snd st) (fst st) l Hf Hlen Hnd Hm).
Qed.

Lemma session_keeps_favorites_tidy_witness :
  exists l,
    favorites (fst (session host0 (provider 3)
       [SaveFavorite Written; SelectFavorite "Oslo,NO";
        SaveFavorite (OpenFails (exc OSError "read-only"));
        Loop (WorkerDone 0); SaveFavorite Written] (start, Missing))) = PList l
    /\ (List.length l <= 12)%nat /\ NoDup l
    /\ fav_menu_values (fst (session host0 (provider 3)
       [SaveFavorite Written; SelectFavorite "Oslo,NO";
        SaveFavorite (OpenFails (exc OSError "read-only"));
        Loop (WorkerDone 0); SaveFavorite Written] (start, Missing)))
       = PList (PStr "(none)" :: l).
Proof.
  apply (session_keeps_favorites_tidy host0 (provider 3)
           [SaveFavorite Written; SelectFavorite "Oslo,NO";
            SaveFavorite (OpenFails (exc OSError "read-only"));
            Loop (WorkerDone 0); SaveFavorite Written] Missing "key" 360 60 start).
  - reflexivity.
  - exists []. split; [reflexivity|]. split; [cbn; lia | constructor].
Defined.

Example thirteen_favorites_stay :
  let file := Text (inr (PList (map (fun n => PStr (String (ascii_of_nat (65 + n)) ""))
                                    (seq 0 13)))) in
  match init file "key" 360 60 with
  | inr st0 =>
      match favorites (fst (session host0 (provider 3)
                              [Loop (Fire 0); SaveFavorite Written] (st0, file))) with
      | PList l => List.length l
      | _ => 0%nat
      end
  | inl _ => 0%nat
  end = 12%nat.
Proof. vm_compute. reflexivity. Qed.

Lemma save_written_loads o disk self :
  written (SaveFavorite o) = true ->
  load_favorites disk = inr (favorites self) ->
  load_favorites (snd (snd (save_current_favorite o disk self)))
  = inr (favorites (fst (snd (save_current_favorite o disk self)))).
Proof.
  intros Ho Hd. destruct o; try discriminate Ho. clear Ho.
  unfold save_current_favorite, set_status, configure, modify.
  destruct (String.eqb _ _); [exact Hd|].
  destruct (contains _ _) as [e | []]; [exact Hd | exact Hd |].
  destruct (insert0 _ _) as [e | inserted]; [exact Hd|].
  cbv zeta.
  destruct (py_add _ _) as [e | values]; reflexivity.
Qed.

(** X22.  The file follows the list.  In every session whose writes go
    through, the favourites file at any point holds what the program
    has in memory: [load_favorites] run at that point, as a restart
    would, returns exactly the current favourites. *)
Theorem session_file_follows_list host net acts file key w h st0 :
  init file key w h = inr st0 ->
  forallb written acts = true ->
  load_favorites (snd (session host net acts (st0, file)))
  = inr (favorites (fst (session host net acts (st0, file)))).
Proof.
  intros Hinit.
  destruct (init_favorites file key w h st0 Hinit) as [H0 _]. clear Hinit.
  change (load_favorites (snd (st0, file)) = inr (favorites (fst (st0, file)))) in H0.
  revert H0. generalize (st0, file). unfold session.
  induction acts as [|a acts IH]; intros st Hs Hw; cbn [fold_left]; [exact Hs|].
  cbn [forallb] in Hw. apply andb_prop in Hw. destruct Hw as [Ha Hw].
  apply IH; [|exact Hw].
  destruct a as [ev | | val | o].
  1-3: match goal with
       | |- context [act _ _ ?a _] =>
           destruct (act_favorites host net a st) as (-> & _ & ->);
             [intros o; discriminate | exact Hs]
       end.
  cbn [act]. apply (save_written_loads o (snd st) (fst st) Ha Hs).
Qed.

Lemma session_file_follows_list_witness :
  load_favorites (snd (session host0 (provider 3)
     [SaveFavorite Written; SelectFavorite "Oslo,NO"; Loop (WorkerDone 0);
      SaveFavorite Written; Refresh] (start, Missing)))
  = inr (PList [PStr "Oslo,NO"; PStr "New York,US"]).
Proof.
  rewrite (session_file_follows_list host0 (provider 3)
           [SaveFavorite Written; SelectFavorite "Oslo,NO"; Loop (WorkerDone 0);
            SaveFavorite Written; Refresh] Missing "key" 360 60 start);
    reflexivity.
Defined.

Example failed_write_leaves_file_behind :
  let st := session host0 (provider 3)
              [SaveFavorite (OpenFails (exc OSError "read-only"))] (start, Missing) in
  favorites (fst st) = PList [PStr "New York,US"]
  /\ load_favorites (snd st) = inr (PList []).
Proof. vm_compute. split; reflexivity. Qed.

End FavouritesList.

(** ** The hourly strip after a complete update *)

Section HourlyStrip.
Import PyStr PyNum Py Util WeatherFetcher Dashboard Frame Outcome Sample.

Lemma pack_in_last_app (s : string) (fs : list Frame) (f : Frame) :
  pack_in_last s (fs ++ [f])
  = (fs ++ [mkFrame (column f) (labels f ++ [s])])%list.
Proof.
  induction fs as [|a fs IH]; [reflexivity|].
  destruct fs as [|b fs]; [reflexivity|].
  change (pack_in_last s ((a :: b :: fs) ++ [f]))
    with (a :: pack_in_last s ((b :: fs) ++ [f])).
  rewrite IH. reflexivity.
Qed.

Lemma hourly_card_returns host c i h s s' :
  hourly_card host c i h s = (inr tt, s') ->
  exists a b d,
    hourly_container s' = (hourly_container s ++ [mkFrame i [a; b; d]])%list.
Proof.
  unfold hourly_card, mbind, new_frame, pack_label, modify, lift.
  destruct (get h "dt" PNone) as [e | ts]; [discriminate|].
  destruct (timestamp_to_local host ts (tz_offset c)) as [e | lt]; [discriminate|].
  destruct (lower_method _) as [e | main]; [discriminate|].
  cbv zeta.
  destruct (get h "temp" PNone) as [e | temp_h]; [discriminate|].
  destruct (format_f 0 temp_h) as [e | t]; [discriminate|].
  intros H. injection H as <-. cbn [hourly_container with_hourly_container].
  rewrite !pack_in_last_app. cbn [column labels app].
  do 3 eexists. reflexivity.
Qed.

Lemma hourly_loop_returns host c hs :
  forall i s s',
    hourly_loop host c i hs s = (inr tt, s') ->
    exists new,
      hourly_container s' = (hourly_container s ++ new)%list
      /\ map column new = map (fun k => i + Z.of_nat k) (seq 0 (List.length hs))
      /\ Forall full_card new.
Proof.
  induction hs as [|h hs IH]; intros i s s' H; cbn [hourly_loop] in H.
  - injection H as <-. exists []. rewrite app_nil_r. repeat split. constructor.
  - unfold mbind in H.
    destruct (hourly_card host c i h s) as [[e | []] s1] eqn:E; [discriminate|].
    destruct (hourly_card_returns host c i h s s1 E) as (a & b & d & H1).
    destruct (IH (i + 1) s1 s' H) as (new & H2 & Hcol & Hfull).
    exists (mkFrame i [a; b; d] :: new). split; [|split].
    + rewrite H2, H1, <- app_assoc. reflexivity.
    + cbn [map List.length seq column]. f_equal; [lia|].
      rewrite Hcol, <- seq_shift, map_map. apply map_ext. intros k. lia.
    + constructor; [reflexivity | exact Hfull].
Qed.

Lemma update_body_strip host c :
  on_return (fun s' => exists hs,
               first12 (hourly c) = inr hs
               /\ map column (hourly_container s') = map Z.of_nat (seq 0 (List.length hs))
               /\ Forall full_card (hourly_container s'))
            (update_body host c).
Proof.
  unfold update_body.
  repeat match goal with
         | |- on_return _ (mbind (lift (first12 _)) _) => fail 1
         | |- on_return _ (mbind _ _) => apply on_return_bind; intros ?
         end.
  intros s x s' H. unfold mbind at 1, lift at 1 in H.
  destruct (first12 (hourly c)) as [e | hs]; [discriminate|].
  unfold mbind at 1, destroy_hourly at 1, modify at 1 in H.
  unfold mbind in H.
  match type of H with
  | context [hourly_loop host c 0 hs ?s0] =>
      destruct (hourly_loop host c 0 hs s0) as [[e | []] s1] eqn:E; [discriminate|];
        destruct (hourly_loop_returns host c hs 0 s0 s1 E) as (new & H1 & Hcol & Hfull)
  end.
  unfold set_status, configure, modify in H. injection H as H. subst s'.
  exists hs. split; [reflexivity|].
  cbn [hourly_container with_text with_hourly_container] in *.
  rewrite H1. cbn [app]. split; [|exact Hfull].
  rewrite Hcol. apply map_ext. intros k. lia.
Qed.

Lemma shown_update_returned host c s :
  text (snd (_update_ui_with_data host c s)) status_label
  = "Showing: " ++ location_name c ->
  exists s', update_body host c s = (inr tt, s')
             /\ snd (_update_ui_with_data host c s) = s'.
Proof.
  unfold _update_ui_with_data, try_except.
  destruct (update_body host c s) as [[e | []] s'].
  - unfold set_status, configure, modify. cbn. intros H. discriminate H.
  - intros _. exists s'. split; reflexivity.
Qed.

(** X23.  Whenever the status line reads "Showing: " and the location
    after a snapshot was applied, the hourly strip holds exactly one
    card for each of the first twelve entries of the snapshot's hourly
    list, in columns 0, 1, 2, ... in that order, and every card is
    complete: a time, an icon and a temperature. *)
Theorem shown_update_has_full_cards host c s :
  text (snd (_update_ui_with_data host c s)) status_label
  = "Showing: " ++ location_name c ->
  exists hs,
    first12 (hourly c) = inr hs
    /\ map column (hourly_container (snd (_update_ui_with_data host c s)))
       = map Z.of_nat (seq 0 (List.length hs))
    /\ Forall full_card (hourly_container (snd (_update_ui_with_data host c s))).
Proof.
  intros H. destruct (shown_update_returned host c s H) as (s' & E & ->).
  apply (update_body_strip host c s tt s' E).
Qed.

Lemma shown_update_has_full_cards_witness :
  exists hs,
    first12 (hourly (snapshot 14)) = inr hs
    /\ map column (hourly_container (snd (_update_ui_with_data host0 (snapshot 14) start)))
       = map Z.of_nat (seq 0 (List.length hs))
    /\ Forall full_card
         (hourly_container (snd (_update_ui_with_data host0 (snapshot 14) start))).
Proof.
  apply (shown_update_has_full_cards host0 (snapshot 14) start).
  vm_compute. reflexivity.
Defined.

End HourlyStrip.

(** ** Readings the provider leaves out *)

Section StaleReadings.
Import PyStr PyNum Py Util WeatherFetcher Dashboard Frame Outcome Sample.

(** X24.  A snapshot whose current conditions carry no temperature (the
    key is missing, or its value is null) leaves the temperature label
    as it was: after an earlier update the label goes on showing the
    earlier reading, next to the new location name, and is not put back
    to its placeholder. *)
Theorem absent_temp_keeps_old_reading host c s :
  get (current c) "temp" PNone = inr PNone ->
  text (snd (_update_ui_with_data host c s)) lbl_temp = text s lbl_temp.
Proof.
  intros Htemp. unfold _update_ui_with_data, update_body.
  unfold configure at 1. rewrite try_bind_modify, Htemp, try_bind_lift.
  match goal with
  | |- context [try_except ?m ?h] =>
      assert (K : keeps (same_label lbl_temp) (try_except m h))
  end.
  { keeps_go_with
      ltac:(idtac;
            match goal with
            | |- keeps _ (if is_none PNone then _ else _) => cbn [is_none]
            | |- keeps _ (_draw_sun_arc _ _ _ _) =>
                apply draw_sun_arc_keeps;
                first [apply same_label_refl | apply same_label_trans
                      | intros; reflexivity]
            | |- keeps _ (hourly_loop _ _ _ _) =>
                apply hourly_loop_keeps;
                first [apply same_label_refl | apply same_label_trans
                      | intros; reflexivity]
            end)
      (same_label_refl lbl_temp) (same_label_trans lbl_temp)
      ltac:(reflexivity). }
  rewrite K. reflexivity.
Qed.

Lemma absent_temp_keeps_old_reading_witness :
  text (snd (_update_ui_with_data host0 snapshot_without_numbers
               (snd (_update_ui_with_data host0 (snapshot 3) start)))) lbl_temp
  = text (snd (_update_ui_with_data host0 (snapshot 3) start)) lbl_temp.
Proof.
  apply (absent_temp_keeps_old_reading host0 snapshot_without_numbers
           (snd (_update_ui_with_data host0 (snapshot 3) start))).
  reflexivity.
Defined.

End StaleReadings.
